(** * Compound v2 liquidation reconstruction (mev-inspect-py)

    A shallow embedding of [mev_inspect/compound_liquidations.py] and
    [mev_inspect/strategy_inspectors/compound_v2_ceth.py], followed by the
    properties of these functions.

    Conventions of the embedding:
    - a Python [str] is a [string] of ASCII characters (addresses, hashes and
      parameter names are ASCII);
    - a Python [int] is a [Z]; a Python [float] is an IEEE-754 binary64 number,
      given by [spec_float] with precision 53 and maximal exponent 1024;
    - a Python [dict] with [str] keys is a [gmap string _];
    - an exception is a value of [exn], and code that may raise lives in the
      [result] monad: the first exception ends the computation, as in Python;
    - the chain (the [web3] provider and the contracts behind it) is a record
      of query functions, each of which may raise. *)

From Stdlib Require Import ZArith String Ascii List Bool Lia.
From Stdlib Require Import Floats.SpecFloat.
From stdpp Require Import base decidable option gmap strings list fin_maps.

Local Open Scope string_scope.
Local Open Scope Z_scope.

(** ** Python values and exceptions *)

(** The values that a decoded call parameter ([Dict[str, Any]]) holds here. *)
Inductive PyVal :=
| VNone
| VInt (n : Z)
| VStr (s : string)
| VFloat (f : spec_float).

Inductive exn :=
| KeyError (key : PyVal)
| TypeError
| AttributeError
| OverflowError
| ZeroDivisionError
| Web3Error (msg : string).

Inductive result (A : Type) :=
| Return (a : A)
| Raise (e : exn).
Arguments Return {A} a.
Arguments Raise {A} e.

#[global] Instance result_ret : MRet result := fun A a => Return a.
#[global] Instance result_bind : MBind result := fun A B k m =>
  match m with
  | Return a => k a
  | Raise e => Raise e
  end.

Definition returns {A} (m : result A) : Prop := exists a, m = Return a.
Definition raises {A} (m : result A) : Prop := exists e, m = Raise e.

(** ** Strings: [str.lower] on ASCII *)

Definition lower_ascii (c : ascii) : ascii :=
  let n := N_of_ascii c in
  if ((65 <=? n) && (n <=? 90))%N then ascii_of_N (n + 32) else c.

Fixpoint lower (s : string) : string :=
  match s with
  | EmptyString => EmptyString
  | String c s' => String (lower_ascii c) (lower s')
  end.

(** [s.lower()] where [s] is any value: only a [str] has the method. *)
Definition py_lower (v : PyVal) : result string :=
  match v with
  | VStr s => Return (lower s)
  | _ => Raise AttributeError
  end.

(** ** Numbers: binary64 floats, true division, power, product *)

Definition float : Type := spec_float.

Definition f64_div : float -> float -> float := SFdiv 53 1024.
Definition f64_mul : float -> float -> float := SFmul 53 1024.

(** An integer as an unrounded operand of a correctly rounded operation. *)
Definition exact_of_int (n : Z) : float :=
  match n with
  | Z0 => S754_zero false
  | Zpos p => S754_finite false p 0
  | Zneg p => S754_finite true p 0
  end.

Definition is_inf (f : float) : bool :=
  match f with
  | S754_infinity _ => true
  | _ => false
  end.

Definition is_zero (f : float) : bool :=
  match f with
  | S754_zero _ => true
  | _ => false
  end.

(** [float(n)]: round to nearest, ties to even; too large an [int] raises. *)
Definition float_of_int (n : Z) : result float :=
  let f := binary_normalize 53 1024 n 0 false in
  if is_inf f then Raise OverflowError else Return f.

(** [a / b] on two [int]s: the correctly rounded quotient. *)
Definition int_truediv (a b : Z) : result float :=
  if decide (b = 0) then Raise ZeroDivisionError
  else
    let q := f64_div (exact_of_int a) (exact_of_int b) in
    if is_inf q then Raise OverflowError else Return q.

(** [a / b] on two [float]s. *)
Definition float_truediv (a b : float) : result float :=
  if is_zero b then Raise ZeroDivisionError else Return (f64_div a b).

(** [b ** e] on two [int]s. A negative exponent gives a [float]; the C
    library's [pow] is taken to be correctly rounded there. *)
Definition py_pow (b e : Z) : result PyVal :=
  if 0 <=? e then Return (VInt (b ^ e))
  else if decide (b = 0) then Raise ZeroDivisionError
  else Return (VFloat (f64_div (exact_of_int 1) (exact_of_int (b ^ (- e))))).

(** [a / d] where [a] is an [int] and [d] the value of a power. *)
Definition py_truediv (a : Z) (d : PyVal) : result float :=
  match d with
  | VInt b => int_truediv a b
  | VFloat g => fa ← float_of_int a; float_truediv fa g
  | _ => Raise TypeError
  end.

(** [x * r] where [r] is a [float]. *)
Definition py_mul (x : PyVal) (r : float) : result float :=
  match x with
  | VInt n => fn ← float_of_int n; Return (f64_mul fn r)
  | VFloat f => Return (f64_mul f r)
  | _ => Raise TypeError
  end.

(** ** Dictionaries *)

(** [d[k]] on [inputs], whose keys are parameter names. *)
Definition getitem {V} (d : gmap string V) (k : string) : result V :=
  match d !! k with
  | Some v => Return v
  | None => Raise (KeyError (VStr k))
  end.

(** [d[k]] when [d] may be [None]: [None] is not subscriptable. *)
Definition subscript {V} (d : option (gmap string V)) (k : string) : result V :=
  match d with
  | Some d' => getitem d' k
  | None => Raise TypeError
  end.

(** [d[k]] where the key is any value: only a [str] can be among the keys. *)
Definition getitem_val {V} (d : gmap string V) (k : PyVal) : result V :=
  match k with
  | VStr s => getitem d s
  | _ => Raise (KeyError k)
  end.

Definition val_of_str (o : option string) : PyVal :=
  match o with
  | Some s => VStr s
  | None => VNone
  end.

Definition val_of_int (o : option Z) : PyVal :=
  match o with
  | Some n => VInt n
  | None => VNone
  end.

(** ** Schemas *)

(** [Classification] and [Protocol] are declared in
    [mev_inspect.schemas.classified_traces]; the members listed are those the
    sources and the test helpers name. Every protocol other than Compound v2
    is [other_protocol]. *)
Inductive Classification :=
| unknown
| swap
| transfer
| liquidate
| seize.

Inductive Protocol :=
| compound_v2
| other_protocol (name : string).

#[global] Instance Classification_eq_dec : EqDecision Classification.
Proof. solve_decision. Defined.
#[global] Instance Protocol_eq_dec : EqDecision Protocol.
Proof. solve_decision. Defined.

(** One call frame. A field that the upstream pipeline may leave unset is an
    [option]; [None] is Python's [None]. *)
Record ClassifiedTrace := {
  transaction_hash : string;
  block_number : Z;
  trace_address : list Z;
  classification : Classification;
  protocol : option Protocol;
  abi_name : option string;
  function_name : option string;
  from_address : option string;
  to_address : option string;
  inputs : option (gmap string PyVal);
  value : option Z;
}.

(** The record that [get_compound_liquidations] builds, one field per keyword
    of the constructor call; a field holds the value passed for it. *)
Module Liquidation.
Record t := {
  liquidated_user : PyVal;
  collateral_token_address : string;
  debt_token_address : string;
  liquidator_user : PyVal;
  debt_purchase_amount : PyVal;
  protocol : Protocol;
  received_amount : float;
  transaction_hash : string;
  trace_address : list Z;
  block_number : Z;
}.
End Liquidation.

(** ** The chain *)

(** What the sources ask of [web3]: [Web3.toChecksumAddress] and the four
    contract calls. A call stands for [w3.eth.contract(address=a, abi=...)]
    followed by [.functions.f().call(...)]; [get_raw_abi] only selects the
    interface and is folded into the call. The result types are those of the
    contract interfaces ([address[]], [address], [uint256], [uint8]). *)
Record Web3 := {
  toChecksumAddress : PyVal -> result string;
  getAllMarkets : string -> result (list string);
  underlying : string -> result string;
  exchangeRateCurrent : string -> Z -> result Z;
  decimals : string -> result Z;
}.

(** ** Trace walking *)

Fixpoint is_child_trace_address (child parent : list Z) : bool :=
  match parent, child with
  | [], _ :: _ => true
  | p :: parent', c :: child' => (c =? p) && is_child_trace_address child' parent'
  | _, _ => false
  end.

(** Modelled from the spec: [get_child_traces] is imported from
    [mev_inspect.traces], which is not among the sources. It returns every
    trace of the same transaction whose address is a strict descendant, at
    any depth, of the given address, in the original relative order. *)
Definition get_child_traces (transaction_hash' : string)
    (parent_trace_address : list Z) (traces : list ClassifiedTrace)
    : list ClassifiedTrace :=
  List.filter
    (fun t => bool_decide (transaction_hash t = transaction_hash')
              && is_child_trace_address (trace_address t) parent_trace_address)
    traces.

(** ** [mev_inspect/compound_liquidations.py] *)

Module compound_liquidations.

Definition V2_COMPTROLLER_ADDRESS : string :=
  "0x3d9819210A31b4961b30EF54bE2aeD79B9c9Cd3B".
Definition V2_C_ETHER : string :=
  "0x4Ddc2D193948926D02f9B1fE9e1daa0718270ED5".

(** The body of [for c_token in markets]. *)
Definition add_market (w3 : Web3) (c_token_mapping : gmap string string)
    (c_token : string) : result (gmap string string) :=
  if bool_decide (c_token ≠ V2_C_ETHER) then
    underlying_token ← underlying w3 c_token;
    Return (<[lower c_token := lower underlying_token]> c_token_mapping)
  else Return c_token_mapping.

Fixpoint add_markets (w3 : Web3) (markets : list string)
    (c_token_mapping : gmap string string) : result (gmap string string) :=
  match markets with
  | [] => Return c_token_mapping
  | c_token :: markets' =>
      c_token_mapping' ← add_market w3 c_token_mapping c_token;
      add_markets w3 markets' c_token_mapping'
  end.

Definition get_all_comp_markets (w3 : Web3) : result (gmap string string) :=
  markets ← getAllMarkets w3 V2_COMPTROLLER_ADDRESS;
  add_markets w3 markets ∅.

Definition get_erc20_token_decimals (token_address : PyVal) (w3 : Web3)
    : result Z :=
  address ← toChecksumAddress w3 token_address;
  decimals w3 address.

Definition get_underlying_ctoken_exchange_rate (c_token_address : PyVal)
    (block_number : Z) (w3 : Web3) (comp_markets : gmap string string)
    : result float :=
  address ← toChecksumAddress w3 c_token_address;
  raw_exchange_rate ← exchangeRateCurrent w3 address block_number;
  key ← py_lower c_token_address;
  underlying_token_address ← getitem comp_markets key;
  decimals_in_underlying ←
    get_erc20_token_decimals (VStr underlying_token_address) w3;
  decimals_in_ctoken ← get_erc20_token_decimals c_token_address w3;
  scale ← py_pow 10 (18 + decimals_in_underlying - decimals_in_ctoken);
  py_truediv raw_exchange_rate scale.

Fixpoint _get_seize_call (child_traces : list ClassifiedTrace)
    : option ClassifiedTrace :=
  match child_traces with
  | [] => None
  | child_trace :: child_traces' =>
      if bool_decide (classification child_trace = seize)
      then Some child_trace
      else _get_seize_call child_traces'
  end.

(** [seize_trace.inputs]: [None] has no attribute [inputs]. *)
Definition inputs_of (seize_trace : option ClassifiedTrace)
    : result (option (gmap string PyVal)) :=
  match seize_trace with
  | Some t => Return (inputs t)
  | None => Raise AttributeError
  end.

Section Reconstruct.

(** [WETH_ADDRESS] is imported from [mev_inspect.classifiers.specs], which is
    not among the sources: a fixed constant, taken as a parameter. *)
Variable WETH_ADDRESS : string.

(** The body of [for trace in traces]: the list of liquidations after the
    trace has been looked at. Keyword arguments are evaluated from left to
    right, so the first of them that raises decides the exception. *)
Definition inspect_trace (traces : list ClassifiedTrace)
    (comp_markets : gmap string string) (w3 : Web3)
    (liquidations : list Liquidation.t) (trace : ClassifiedTrace)
    : result (list Liquidation.t) :=
  if bool_decide (classification trace = liquidate)
     && bool_decide (protocol trace = Some compound_v2)
  then
    let child_traces :=
      get_child_traces (transaction_hash trace) (trace_address trace) traces in
    let seize_trace := _get_seize_call child_traces in
    c_token_collateral ← subscript (inputs trace) "cTokenCollateral";
    underlying_exchange_rate ←
      get_underlying_ctoken_exchange_rate
        c_token_collateral (block_number trace) w3 comp_markets;
    if bool_decide (abi_name trace = Some "CEther") then
      liquidated_user ← subscript (inputs trace) "borrower";
      debt_token_address ← getitem_val comp_markets c_token_collateral;
      seize_inputs ← inputs_of seize_trace;
      liquidator_user ← subscript seize_inputs "liquidator";
      seize_inputs' ← inputs_of seize_trace;
      seizeTokens ← subscript seize_inputs' "seizeTokens";
      received_amount ← py_mul seizeTokens underlying_exchange_rate;
      Return (liquidations ++ [
        {| Liquidation.liquidated_user := liquidated_user;
           Liquidation.collateral_token_address := WETH_ADDRESS;
           Liquidation.debt_token_address := debt_token_address;
           Liquidation.liquidator_user := liquidator_user;
           Liquidation.debt_purchase_amount := val_of_int (value trace);
           Liquidation.protocol := compound_v2;
           Liquidation.received_amount := received_amount;
           Liquidation.transaction_hash := transaction_hash trace;
           Liquidation.trace_address := trace_address trace;
           Liquidation.block_number := block_number trace |} ])%list
    else if bool_decide (abi_name trace = Some "CToken") then
      liquidated_user ← subscript (inputs trace) "borrower";
      collateral_token_address ←
        getitem_val comp_markets (val_of_str (to_address trace));
      debt_token_address ← getitem_val comp_markets c_token_collateral;
      seize_inputs ← inputs_of seize_trace;
      liquidator_user ← subscript seize_inputs "liquidator";
      debt_purchase_amount ← subscript (inputs trace) "repayAmount";
      seize_inputs' ← inputs_of seize_trace;
      seizeTokens ← subscript seize_inputs' "seizeTokens";
      received_amount ← py_mul seizeTokens underlying_exchange_rate;
      Return (liquidations ++ [
        {| Liquidation.liquidated_user := liquidated_user;
           Liquidation.collateral_token_address := collateral_token_address;
           Liquidation.debt_token_address := debt_token_address;
           Liquidation.liquidator_user := liquidator_user;
           Liquidation.debt_purchase_amount := debt_purchase_amount;
           Liquidation.protocol := compound_v2;
           Liquidation.received_amount := received_amount;
           Liquidation.transaction_hash := transaction_hash trace;
           Liquidation.trace_address := trace_address trace;
           Liquidation.block_number := block_number trace |} ])%list
    else Return liquidations
  else Return liquidations.

(** The loop over the traces still to be looked at; [traces] is the whole
    list, in which the children of each trace are searched. *)
Fixpoint inspect_traces (traces : list ClassifiedTrace)
    (comp_markets : gmap string string) (w3 : Web3)
    (todo : list ClassifiedTrace) (liquidations : list Liquidation.t)
    : result (list Liquidation.t) :=
  match todo with
  | [] => Return liquidations
  | trace :: todo' =>
      liquidations' ← inspect_trace traces comp_markets w3 liquidations trace;
      inspect_traces traces comp_markets w3 todo' liquidations'
  end.

Definition get_compound_liquidations (traces : list ClassifiedTrace)
    (comp_markets : gmap string string) (w3 : Web3)
    : result (list Liquidation.t) :=
  inspect_traces traces comp_markets w3 traces [].

End Reconstruct.

End compound_liquidations.

(** ** [mev_inspect/strategy_inspectors/compound_v2_ceth.py] *)

(** The transaction, of which the inspector reads three fields. *)
Module Transaction.
Record t := {
  tx_hash : string;
  from_address : string;
  to_address : string;
}.
End Transaction.

(** The enumerations of [mev_inspect.schemas.liquidations], with the members
    the inspector names. *)
Inductive LiquidationCollateralSource :=
| other
| searcher_contract
| searcher_eoa.

Inductive LiquidationStatus :=
| seized.

Inductive LiquidationType :=
| compound_v2_ceth_liquidation.

(** Modelled from the spec: the [Liquidation] class that the inspector
    instantiates is declared in [mev_inspect.schemas.liquidations], which is
    not among the sources. An object of the class is either built from the
    twelve keywords or by [Liquidation()], without arguments, which is the
    default-constructed placeholder record. *)
Module CethLiquidation.
Record kwargs := {
  tx_hash : string;
  borrower : PyVal;
  collateral_provided : string;
  collateral_provided_amount : PyVal;
  asset_seized : string;
  asset_seized_amount : Z;
  profit_in_eth : Z;
  tokenflow_estimate_in_eth : Z;
  tokenflow_diff : Z;
  collateral_source : LiquidationCollateralSource;
  status : LiquidationStatus;
  type : LiquidationType;
}.
Inductive t :=
| Liquidation_default
| Liquidation_with (k : kwargs).
End CethLiquidation.

Module compound_v2_ceth.

Definition comp_v2_comptroller_address : string :=
  "0x3d9819210A31b4961b30EF54bE2aeD79B9c9Cd3B".
Definition c_ether : string :=
  "0x4Ddc2D193948926D02f9B1fE9e1daa0718270ED5".

Section Inspector.

(** The module-level provider [w3]. *)
Variable w3 : Web3.

Fixpoint add_markets (markets : list string)
    (c_token_mapping : gmap string string) : result (gmap string string) :=
  match markets with
  | [] => Return c_token_mapping
  | c_token :: markets' =>
      if bool_decide (c_token ≠ c_ether) then
        underlying_token ← underlying w3 c_token;
        add_markets markets'
          (<[lower c_token := lower underlying_token]> c_token_mapping)
      else add_markets markets' c_token_mapping
  end.

Definition get_all_comp_markets : result (gmap string string) :=
  markets ← getAllMarkets w3 comp_v2_comptroller_address;
  add_markets markets ∅.

(** The body of the loop of [find_collateral_source]: the source after one
    trace has been looked at. *)
Definition attribute_trace (tx : Transaction.t)
    (liquidation_contract : option string)
    (source : LiquidationCollateralSource) (classified_trace : ClassifiedTrace)
    : LiquidationCollateralSource :=
  if bool_decide (to_address classified_trace = liquidation_contract)
     && bool_decide (function_name classified_trace = Some "liquidateBorrow")
  then
    if bool_decide (Some (lower (Transaction.to_address tx))
                    = from_address classified_trace)
    then searcher_contract
    else if bool_decide (Some (lower (Transaction.from_address tx))
                         = from_address classified_trace)
    then searcher_eoa
    else source
  else source.

Definition find_collateral_source (classified_traces : list ClassifiedTrace)
    (tx : Transaction.t) (liquidation_contract : option string)
    : LiquidationCollateralSource :=
  fold_left (attribute_trace tx liquidation_contract) classified_traces other.

(** The loop of [inspect_compound_v2_ceth] over the traces still to be looked
    at; the first trace that matches ends it. *)
Fixpoint inspect_loop (tx : Transaction.t)
    (classified_traces todo : list ClassifiedTrace)
    : result CethLiquidation.t :=
  match todo with
  | [] => Return CethLiquidation.Liquidation_default
  | classified_trace :: todo' =>
      if bool_decide (function_name classified_trace = Some "liquidateBorrow")
         && bool_decide (is_Some (inputs classified_trace))
      then
        let source :=
          find_collateral_source classified_traces tx
            (to_address classified_trace) in
        borrower ← subscript (inputs classified_trace) "borrower";
        c_token_collateral ←
          subscript (inputs classified_trace) "cTokenCollateral";
        comp_markets ← get_all_comp_markets;
        asset_seized ← getitem_val comp_markets c_token_collateral;
        Return (CethLiquidation.Liquidation_with
          {| CethLiquidation.tx_hash := Transaction.tx_hash tx;
             CethLiquidation.borrower := borrower;
             CethLiquidation.collateral_provided := "ether";
             CethLiquidation.collateral_provided_amount :=
               val_of_int (value classified_trace);
             CethLiquidation.asset_seized := asset_seized;
             CethLiquidation.asset_seized_amount := 0;
             CethLiquidation.profit_in_eth := 0;
             CethLiquidation.tokenflow_estimate_in_eth := 0;
             CethLiquidation.tokenflow_diff := 0;
             CethLiquidation.collateral_source := source;
             CethLiquidation.status := seized;
             CethLiquidation.type := compound_v2_ceth_liquidation |})
      else inspect_loop tx classified_traces todo'
  end.

Definition inspect_compound_v2_ceth (tx : Transaction.t)
    (classified_traces : list ClassifiedTrace) : result CethLiquidation.t :=
  inspect_loop tx classified_traces classified_traces.

End Inspector.

Section Rate.

Variable w3 : Web3.

(** [get_erc20_token_decimals] is imported here from
    [mev_inspect.historical_price], which is not among the sources: a
    function of one address, taken as a parameter. *)
Variable get_erc20_token_decimals : string -> result Z.

(** The rate as this module computes it: the contract is addressed with
    [c_token_address] as it is, and the registry is built at each call. *)
Definition get_underlying_ctoken_exchange_rate (c_token_address : string)
    (block_number : Z) : result float :=
  raw_exchange_rate ← exchangeRateCurrent w3 c_token_address block_number;
  comp_markets ← get_all_comp_markets w3;
  underlying_token_address ← getitem comp_markets (lower c_token_address);
  address ← toChecksumAddress w3 (VStr underlying_token_address);
  decimals_in_underlying ← get_erc20_token_decimals address;
  decimals_in_ctoken ← get_erc20_token_decimals c_token_address;
  scale ← py_pow 10 (18 + decimals_in_underlying - decimals_in_ctoken);
  py_truediv raw_exchange_rate scale.

End Rate.

End compound_v2_ceth.

(** ** [tests/helpers.py] *)

Module helpers.

(** [TraceType], with the member the helpers name. *)
Inductive TraceType :=
| call.

(** What a helper builds: an object of [Call], [ClassifiedCall] or
    [ClassifiedTrace], that is, the fields of a classified trace together
    with the [type] of the frame, which the inspectors do not read. The
    fields a helper does not pass are [None]. *)
Record Trace := {
  type : TraceType;
  fields : ClassifiedTrace;
}.

Definition make_transfer_trace (block_number' : Z) (transaction_hash' : string)
    (trace_address' : list Z) (from_address' to_address' token_address : string)
    (amount : Z) : Trace := {|
  type := call;
  fields := {|
    transaction_hash := transaction_hash';
    block_number := block_number';
    trace_address := trace_address';
    classification := transfer;
    protocol := None;
    abi_name := None;
    function_name := None;
    from_address := Some from_address';
    to_address := Some token_address;
    inputs := Some (<["recipient" := VStr to_address']>
                      (<["amount" := VInt amount]> ∅));
    value := None;
  |};
|}.

Definition make_swap_trace (block_number' : Z) (transaction_hash' : string)
    (trace_address' : list Z) (from_address' pool_address abi_name' : string)
    (recipient_address recipient_input_key : string) : Trace := {|
  type := call;
  fields := {|
    transaction_hash := transaction_hash';
    block_number := block_number';
    trace_address := trace_address';
    classification := swap;
    protocol := None;
    abi_name := Some abi_name';
    function_name := None;
    from_address := Some from_address';
    to_address := Some pool_address;
    inputs := Some (<[recipient_input_key := VStr recipient_address]> ∅);
    value := None;
  |};
|}.

Definition make_unknown_trace (block_number' : Z) (transaction_hash' : string)
    (trace_address' : list Z) : Trace := {|
  type := call;
  fields := {|
    transaction_hash := transaction_hash';
    block_number := block_number';
    trace_address := trace_address';
    classification := unknown;
    protocol := None;
    abi_name := None;
    function_name := None;
    from_address := None;
    to_address := None;
    inputs := None;
    value := None;
  |};
|}.

Definition make_many_unknown_traces (block_number' : Z)
    (transaction_hash' : string) (trace_addresses : list (list Z))
    : list Trace :=
  List.map (make_unknown_trace block_number' transaction_hash')
    trace_addresses.

(** The traces the helpers build. *)
Inductive built : Trace -> Prop :=
| built_transfer b h a f t k n : built (make_transfer_trace b h a f t k n)
| built_swap b h a f p n r k : built (make_swap_trace b h a f p n r k)
| built_unknown b h a : built (make_unknown_trace b h a).

End helpers.

(** ** A deterministic scenario

    The end-to-end scenario of the specification: a fake provider, the
    registry of two markets, and a liquidation call with its seize call. *)

Module Scenario.

Import compound_liquidations.

Definition WETH_ADDRESS : string :=
  "0xc02aaa39b223fe8d0a0e5c4f27ead9083c756cc2".

Definition registry : gmap string string :=
  <["0xc_dai" := "0xdai"]> (<["0xc_usdc" := "0xusdc"]> ∅).

Definition reverted {A} : result A := Raise (Web3Error "execution reverted").

Definition w3 : Web3 := {|
  toChecksumAddress v :=
    match v with
    | VStr s => Return s
    | _ => Raise TypeError
    end;
  getAllMarkets _ := Return ["0xC_DAI"; V2_C_ETHER; "0xC_USDC"];
  underlying c :=
    if bool_decide (c = "0xC_DAI") then Return "0xDAI"
    else if bool_decide (c = "0xC_USDC") then Return "0xUSDC"
    else reverted;
  exchangeRateCurrent c _ :=
    if bool_decide (c = "0xc_dai") then Return (2 * 10 ^ 26) else reverted;
  decimals c :=
    if bool_decide (c = "0xdai") then Return 18
    else if bool_decide (c = "0xusdc") then Return 6
    else if bool_decide (c = "0xc_dai") then Return 8
    else if bool_decide (c = "0xc_usdc") then Return 8
    else reverted;
|}.

(** The binary64 numbers 0.02 and 10.0. *)
Definition float_0_02 : float := S754_finite false 5764607523034235 (-58).
Definition float_10 : float := S754_finite false 5629499534213120 (-49).

Definition liquidate_inputs : gmap string PyVal :=
  <["borrower" := VStr "0xB"]>
    (<["cTokenCollateral" := VStr "0xc_dai"]>
      (<["repayAmount" := VInt 1000]> ∅)).

Definition seize_inputs : gmap string PyVal :=
  <["liquidator" := VStr "0xL"]> (<["seizeTokens" := VInt 500]> ∅).

Definition liquidate_trace (abi : option string) (to : option string)
    (address : list Z) (ins : option (gmap string PyVal)) : ClassifiedTrace := {|
  transaction_hash := "0xabc";
  block_number := 13000000;
  trace_address := address;
  classification := liquidate;
  protocol := Some compound_v2;
  abi_name := abi;
  function_name := Some "liquidateBorrow";
  from_address := Some "0xl";
  to_address := to;
  inputs := ins;
  value := Some 0;
|}.

Definition seize_trace (address : list Z) : ClassifiedTrace := {|
  transaction_hash := "0xabc";
  block_number := 13000000;
  trace_address := address;
  classification := seize;
  protocol := Some compound_v2;
  abi_name := Some "CToken";
  function_name := Some "seize";
  from_address := Some "0xc_usdc";
  to_address := Some "0xc_dai";
  inputs := Some seize_inputs;
  value := Some 0;
|}.

(** The liquidation call of the scenario and its child. *)
Definition token_liquidation : ClassifiedTrace :=
  liquidate_trace (Some "CToken") (Some "0xc_usdc") [0] (Some liquidate_inputs).

Definition traces : list ClassifiedTrace :=
  [token_liquidation; seize_trace [0; 1]].

(** A liquidation call on the cEther market that attaches 1000 wei. *)
Definition ether_liquidation : ClassifiedTrace := {|
  transaction_hash := "0xabc";
  block_number := 13000000;
  trace_address := [0];
  classification := liquidate;
  protocol := Some compound_v2;
  abi_name := Some "CEther";
  function_name := Some "liquidateBorrow";
  from_address := Some "0xl";
  to_address := Some V2_C_ETHER;
  inputs := Some liquidate_inputs;
  value := Some 1000;
|}.

(** A call of [liquidateBorrow] on the market 0xc_usdc that comes from the
    given address. *)
Definition liquidateBorrow_from (from : string) : ClassifiedTrace := {|
  transaction_hash := "0xabc";
  block_number := 13000000;
  trace_address := [0];
  classification := liquidate;
  protocol := Some compound_v2;
  abi_name := Some "CToken";
  function_name := Some "liquidateBorrow";
  from_address := Some from;
  to_address := Some "0xc_usdc";
  inputs := Some liquidate_inputs;
  value := Some 0;
|}.

Definition tx : Transaction.t := {|
  Transaction.tx_hash := "0xabc";
  Transaction.from_address := "0xE0A";
  Transaction.to_address := "0xB07";
|}.

(** A liquidation call whose decoded inputs lack every expected key. *)
Definition malformed_liquidation : ClassifiedTrace :=
  liquidate_trace (Some "CToken") (Some "0xc_usdc") [1] (Some ∅).

(** The record of the scenario, up to its two token addresses. *)
Definition record (collateral debt : string) (repaid : PyVal) : Liquidation.t := {|
  Liquidation.liquidated_user := VStr "0xB";
  Liquidation.collateral_token_address := collateral;
  Liquidation.debt_token_address := debt;
  Liquidation.liquidator_user := VStr "0xL";
  Liquidation.debt_purchase_amount := repaid;
  Liquidation.protocol := compound_v2;
  Liquidation.received_amount := float_10;
  Liquidation.transaction_hash := "0xabc";
  Liquidation.trace_address := [0];
  Liquidation.block_number := 13000000;
|}.

End Scenario.

(** ** Statements taken from the specification *)

(** The failure policy of the specification: the pass returns its records
    although some trace failed, so that every trace that reconstructs has its
    record in the result. *)
Definition failure_scoped_to_trace (WETH_ADDRESS : string)
    (traces : list ClassifiedTrace) (comp_markets : gmap string string)
    (w3 : Web3) : Prop :=
  exists records,
    compound_liquidations.get_compound_liquidations
      WETH_ADDRESS traces comp_markets w3 = Return records
    /\ forall t r,
         In t traces ->
         compound_liquidations.inspect_trace
           WETH_ADDRESS traces comp_markets w3 [] t = Return [r] ->
         In r records.

(** A string with an upper-case character is one that [lower] changes. *)
Definition has_upper (s : string) : Prop := lower s <> s.

(** The registry holds lower-cased keys only. *)
Definition lower_keys (comp_markets : gmap string string) : Prop :=
  forall k, is_Some (comp_markets !! k) -> lower k = k.

(** Addresses are spelled one way: two of them that agree up to the case of
    their letters are the same string. *)
Definition one_spelling (addresses : list string) : Prop :=
  forall a b, In a addresses -> In b addresses -> lower a = lower b -> a = b.

(** The traces that decide the collateral source: the calls of
    [liquidateBorrow] on the liquidation contract that come from the
    lower-cased destination or origin of the transaction. *)
Definition attributes (tx : Transaction.t) (liquidation_contract : option string)
    (t : ClassifiedTrace) : bool :=
  bool_decide (to_address t = liquidation_contract)
  && bool_decide (function_name t = Some "liquidateBorrow")
  && (bool_decide (Some (lower (Transaction.to_address tx)) = from_address t)
      || bool_decide (Some (lower (Transaction.from_address tx))
                      = from_address t)).

Definition attribution (tx : Transaction.t) (t : ClassifiedTrace)
    : LiquidationCollateralSource :=
  if bool_decide (Some (lower (Transaction.to_address tx)) = from_address t)
  then searcher_contract
  else searcher_eoa.

(** ** Shapes of traces and records *)

(** The traces on which [get_compound_liquidations] takes one of its two
    branches. *)
Definition matched (t : ClassifiedTrace) : bool :=
  bool_decide (classification t = liquidate)
  && bool_decide (protocol t = Some compound_v2)
  && (bool_decide (abi_name t = Some "CEther")
      || bool_decide (abi_name t = Some "CToken")).

(** Where a trace, and a record, come from. *)
Definition trace_provenance (t : ClassifiedTrace) : string * list Z * Z :=
  (transaction_hash t, trace_address t, block_number t).

Definition record_provenance (r : Liquidation.t) : string * list Z * Z :=
  (Liquidation.transaction_hash r, Liquidation.trace_address r,
   Liquidation.block_number r).

(** The traces that end the loop of [inspect_compound_v2_ceth]. *)
Definition decoded_liquidateBorrow (t : ClassifiedTrace) : bool :=
  bool_decide (function_name t = Some "liquidateBorrow")
  && bool_decide (is_Some (inputs t)).

Definition is_return {A} (m : result A) : bool :=
  match m with
  | Return _ => true
  | Raise _ => false
  end.

(** * Properties *)

(** ** The [result] monad *)

Lemma bind_Return {A B} (a : A) (k : A -> result B) :
  (x ← Return a; k x) = k a.
Proof. reflexivity. Qed.

Lemma bind_Raise {A B} (e : exn) (k : A -> result B) :
  (x ← Raise e; k x) = Raise e.
Proof. reflexivity. Qed.

Lemma bind_Return_inv {A B} (m : result A) (k : A -> result B) (b : B) :
  (x ← m; k x) = Return b -> exists a, m = Return a /\ k a = Return b.
Proof. destruct m as [a|e]; [eauto | discriminate]. Qed.

Lemma bind_assoc {A B C} (m : result A) (k : A -> result B)
    (h : B -> result C) :
  (y ← (x ← m; k x); h y) = (x ← m; y ← k x; h y).
Proof. by destruct m. Qed.

Lemma bind_ext {A B} (m : result A) (k h : A -> result B) :
  (forall a, k a = h a) -> (x ← m; k x) = (x ← m; h x).
Proof. intros E. destruct m; [apply E | reflexivity]. Qed.

(** ** [str.lower] *)

Lemma lower_ascii_idemp (c : ascii) : lower_ascii (lower_ascii c) = lower_ascii c.
Proof. by destruct c as [[] [] [] [] [] [] [] []]. Qed.

Lemma lower_idemp (s : string) : lower (lower s) = lower s.
Proof.
  induction s as [|c s IH]; [reflexivity|].
  simpl. by rewrite lower_ascii_idemp, IH.
Qed.

(** ** Scenario checks *)

Example scenario_rate :
  compound_liquidations.get_underlying_ctoken_exchange_rate
    (VStr "0xc_dai") 13000000 Scenario.w3 Scenario.registry
  = Return Scenario.float_0_02.
Proof. vm_compute. reflexivity. Qed.

Example scenario_product :
  py_mul (VInt 500) Scenario.float_0_02 = Return Scenario.float_10.
Proof. vm_compute. reflexivity. Qed.

Example scenario_float_10 : float_of_int 10 = Return Scenario.float_10.
Proof. vm_compute. reflexivity. Qed.

Example scenario_float_0_02 : int_truediv 2 100 = Return Scenario.float_0_02.
Proof. vm_compute. reflexivity. Qed.

Example scenario_registry :
  compound_liquidations.get_all_comp_markets Scenario.w3
  = Return Scenario.registry.
Proof. vm_compute. reflexivity. Qed.

(** ** The loop of [get_compound_liquidations] *)

(** Case analysis on the first computation of a sequence. *)
Ltac bind_case :=
  match goal with
  | |- context [mbind _ ?m] =>
      lazymatch m with
      | Return _ => rewrite bind_Return
      | Raise _ => rewrite bind_Raise
      | _ => destruct m eqn:?
      end
  end.

Ltac bind_cases := repeat (bind_case; simpl; try reflexivity).

(** Inversion of a sequence that returned. *)
Ltac bind_inv H :=
  let a := fresh "a" in
  let Ha := fresh "Ha" in
  apply bind_Return_inv in H as (a & Ha & H).

Section ReconstructFacts.

Import compound_liquidations.

Variable WETH_ADDRESS : string.
Variable traces : list ClassifiedTrace.
Variable comp_markets : gmap string string.
Variable w3 : Web3.

Local Abbreviation inspect_trace :=
  (inspect_trace WETH_ADDRESS traces comp_markets w3).
Local Abbreviation inspect_traces :=
  (inspect_traces WETH_ADDRESS traces comp_markets w3).

(** What a trace adds does not depend on the records collected so far. *)
Lemma inspect_trace_acc ls t :
  inspect_trace ls t = (new ← inspect_trace [] t; Return (ls ++ new)%list).
Proof.
  unfold compound_liquidations.inspect_trace.
  repeat case_bool_decide; simpl; rewrite ?app_nil_r; try reflexivity.
  all: bind_cases; by rewrite ?app_nil_r.
Qed.

(** A trace adds no record or one record. *)
Lemma inspect_trace_at_most_one t new :
  inspect_trace [] t = Return new -> new = [] \/ exists r, new = [r].
Proof.
  unfold compound_liquidations.inspect_trace.
  repeat case_bool_decide; simpl; intros Hret;
    repeat bind_inv Hret; inversion Hret; eauto.
Qed.

Lemma inspect_traces_acc todo ls :
  inspect_traces todo ls
  = (new ← inspect_traces todo []; Return (ls ++ new)%list).
Proof.
  revert ls. induction todo as [|t todo IH]; intros ls; simpl.
  - by rewrite app_nil_r.
  - rewrite (inspect_trace_acc ls t).
    destruct (inspect_trace [] t) as [new|e]; simpl; [|reflexivity].
    rewrite (IH (ls ++ new)%list), (IH new).
    destruct (inspect_traces todo []) as [rest|e]; simpl; [|reflexivity].
    by rewrite app_assoc.
Qed.

Lemma inspect_traces_cons t todo :
  inspect_traces (t :: todo) []
  = (new ← inspect_trace [] t;
     rest ← inspect_traces todo [];
     Return (new ++ rest)%list).
Proof.
  simpl. destruct (inspect_trace [] t) as [new|e]; simpl; [|reflexivity].
  apply inspect_traces_acc.
Qed.

(** The first trace that raises decides the outcome of the loop. *)
Lemma inspect_traces_raise pre t post e :
  Forall (fun x => returns (inspect_trace [] x)) pre ->
  inspect_trace [] t = Raise e ->
  inspect_traces (pre ++ t :: post) [] = Raise e.
Proof.
  intros Hpre Ht. induction Hpre as [|x pre [new Hx] _ IH].
  - simpl. rewrite Ht. reflexivity.
  - change ((x :: pre) ++ t :: post)%list with (x :: (pre ++ t :: post))%list.
    rewrite inspect_traces_cons, Hx, IH. reflexivity.
Qed.

(** The loop returns when every trace does. *)
Lemma inspect_traces_returns todo :
  Forall (fun x => returns (inspect_trace [] x)) todo ->
  returns (inspect_traces todo []).
Proof.
  induction 1 as [|x todo [new Hx] _ [rest IH]].
  - by exists [].
  - rewrite inspect_traces_cons, Hx, IH. by eexists.
Qed.

(** When the loop returns, every trace returned, and the records of each
    trace are among those of the loop. *)
Lemma inspect_traces_In todo out t :
  inspect_traces todo [] = Return out ->
  In t todo ->
  exists new, inspect_trace [] t = Return new /\ forall r, In r new -> In r out.
Proof.
  revert out. induction todo as [|x todo IH]; intros out H Hin; [destruct Hin|].
  rewrite inspect_traces_cons in H.
  bind_inv H. bind_inv H. inversion H; subst out; clear H.
  destruct Hin as [->|Hin].
  - exists a. split; [assumption|]. intros r Hr. apply in_or_app. by left.
  - destruct (IH a0 Ha0 Hin) as (new & Hnew & Hsub).
    exists new. split; [assumption|].
    intros r Hr. apply in_or_app. right. by apply Hsub.
Qed.

(** Without a seize call among its descendants, a liquidation call never
    adds a record. *)
Lemma no_seize_no_record t new :
  _get_seize_call
    (get_child_traces (transaction_hash t) (trace_address t) traces) = None ->
  inspect_trace [] t = Return new -> new = [].
Proof.
  intros Hs. unfold compound_liquidations.inspect_trace. rewrite Hs.
  repeat case_bool_decide; simpl; intros Hret;
    repeat bind_inv Hret; solve [discriminate | by inversion Hret].
Qed.

(** In both variants the missing seize call makes the loop body raise. *)
Lemma no_seize_variant_raises t :
  classification t = liquidate ->
  protocol t = Some compound_v2 ->
  abi_name t = Some "CEther" \/ abi_name t = Some "CToken" ->
  _get_seize_call
    (get_child_traces (transaction_hash t) (trace_address t) traces) = None ->
  raises (inspect_trace [] t).
Proof.
  intros Hc Hp Habi Hs.
  destruct (inspect_trace [] t) as [new|e] eqn:E; [|by exists e].
  exfalso. revert E.
  unfold compound_liquidations.inspect_trace. rewrite Hs, Hc, Hp.
  destruct Habi as [-> | ->]; simpl; intros H; repeat bind_inv H; discriminate.
Qed.

End ReconstructFacts.

(** ** One step of the loop, by shape of the trace *)

Section Steps.

Import compound_liquidations.

Variable WETH_ADDRESS : string.
Variable traces : list ClassifiedTrace.
Variable comp_markets : gmap string string.
Variable w3 : Web3.

Local Abbreviation inspect_trace :=
  (inspect_trace WETH_ADDRESS traces comp_markets w3).

(** A trace that is not a Compound v2 liquidation call is passed over. *)
Lemma other_trace_step ls t :
  classification t <> liquidate \/ protocol t <> Some compound_v2 ->
  inspect_trace ls t = Return ls.
Proof.
  intros Hq. unfold compound_liquidations.inspect_trace.
  repeat case_bool_decide; simpl; try reflexivity; tauto.
Qed.

(** A liquidation call decoded with neither interface is passed over once
    its collateral market and the rate have been resolved. *)
Lemma unmatched_abi_step ls t ins c rate :
  classification t = liquidate ->
  protocol t = Some compound_v2 ->
  abi_name t <> Some "CEther" ->
  abi_name t <> Some "CToken" ->
  inputs t = Some ins ->
  ins !! "cTokenCollateral" = Some c ->
  get_underlying_ctoken_exchange_rate c (block_number t) w3 comp_markets
    = Return rate ->
  inspect_trace ls t = Return ls.
Proof.
  intros Hc Hp H1 H2 Hins Hcol Hrate.
  unfold compound_liquidations.inspect_trace.
  rewrite Hc, Hp, Hins. simpl. unfold getitem. rewrite Hcol. simpl.
  rewrite Hrate. simpl. by repeat case_bool_decide.
Qed.

(** The native-asset variant. *)
Lemma cether_step ls t s ins sins c rate borrower debt liquidator tokens amount :
  classification t = liquidate ->
  protocol t = Some compound_v2 ->
  abi_name t = Some "CEther" ->
  _get_seize_call
    (get_child_traces (transaction_hash t) (trace_address t) traces) = Some s ->
  inputs t = Some ins ->
  inputs s = Some sins ->
  ins !! "cTokenCollateral" = Some (VStr c) ->
  ins !! "borrower" = Some borrower ->
  sins !! "liquidator" = Some liquidator ->
  sins !! "seizeTokens" = Some tokens ->
  comp_markets !! c = Some debt ->
  get_underlying_ctoken_exchange_rate (VStr c) (block_number t) w3 comp_markets
    = Return rate ->
  py_mul tokens rate = Return amount ->
  inspect_trace ls t = Return (ls ++ [
    {| Liquidation.liquidated_user := borrower;
       Liquidation.collateral_token_address := WETH_ADDRESS;
       Liquidation.debt_token_address := debt;
       Liquidation.liquidator_user := liquidator;
       Liquidation.debt_purchase_amount := val_of_int (value t);
       Liquidation.protocol := compound_v2;
       Liquidation.received_amount := amount;
       Liquidation.transaction_hash := transaction_hash t;
       Liquidation.trace_address := trace_address t;
       Liquidation.block_number := block_number t |} ])%list.
Proof.
  intros Hc Hp Habi Hs Hins Hsins Hcol Hb Hl Htok Hdebt Hrate Hmul.
  unfold compound_liquidations.inspect_trace.
  rewrite Hc, Hp, Habi, Hs, Hins. simpl. rewrite Hsins. unfold getitem.
  rewrite Hcol. simpl. rewrite Hrate. simpl. rewrite Hb. simpl.
  unfold getitem. rewrite Hdebt. simpl. rewrite Hl. simpl. rewrite Htok. simpl.
  rewrite Hmul. reflexivity.
Qed.

(** The token variant. *)
Lemma ctoken_step ls t s ins sins c a rate borrower collateral debt liquidator
    repay tokens amount :
  classification t = liquidate ->
  protocol t = Some compound_v2 ->
  abi_name t = Some "CToken" ->
  _get_seize_call
    (get_child_traces (transaction_hash t) (trace_address t) traces) = Some s ->
  inputs t = Some ins ->
  inputs s = Some sins ->
  ins !! "cTokenCollateral" = Some (VStr c) ->
  ins !! "borrower" = Some borrower ->
  ins !! "repayAmount" = Some repay ->
  sins !! "liquidator" = Some liquidator ->
  sins !! "seizeTokens" = Some tokens ->
  to_address t = Some a ->
  comp_markets !! a = Some collateral ->
  comp_markets !! c = Some debt ->
  get_underlying_ctoken_exchange_rate (VStr c) (block_number t) w3 comp_markets
    = Return rate ->
  py_mul tokens rate = Return amount ->
  inspect_trace ls t = Return (ls ++ [
    {| Liquidation.liquidated_user := borrower;
       Liquidation.collateral_token_address := collateral;
       Liquidation.debt_token_address := debt;
       Liquidation.liquidator_user := liquidator;
       Liquidation.debt_purchase_amount := repay;
       Liquidation.protocol := compound_v2;
       Liquidation.received_amount := amount;
       Liquidation.transaction_hash := transaction_hash t;
       Liquidation.trace_address := trace_address t;
       Liquidation.block_number := block_number t |} ])%list.
Proof.
  intros Hc Hp Habi Hs Hins Hsins Hcol Hb Hrepay Hl Htok Hto Hcoll Hdebt
    Hrate Hmul.
  unfold compound_liquidations.inspect_trace.
  rewrite Hc, Hp, Habi, Hs, Hins, Hto. simpl. rewrite Hsins. unfold getitem.
  rewrite Hcol. simpl. rewrite Hrate. simpl. rewrite Hb. simpl.
  unfold getitem. rewrite Hcoll. simpl. rewrite Hdebt. simpl.
  rewrite Hl. simpl. rewrite Hrepay. simpl. rewrite Htok. simpl.
  rewrite Hmul. reflexivity.
Qed.

(** A record added by one trace is among the records of the pass. *)
Lemma step_record_in_pass t r out :
  In t traces ->
  inspect_trace [] t = Return [r] ->
  get_compound_liquidations WETH_ADDRESS traces comp_markets w3 = Return out ->
  In r out.
Proof.
  intros Hin Hstep Hout.
  destruct (inspect_traces_In WETH_ADDRESS traces comp_markets w3 traces out t
              Hout Hin) as (new & Hnew & Hsub).
  rewrite Hstep in Hnew. inversion Hnew; subst new. apply Hsub. by left.
Qed.

End Steps.

Lemma is_return_returns {A} (m : result A) : is_return m = true -> returns m.
Proof. destruct m as [a|e]; [by exists a | discriminate]. Qed.

(** ** Liquidation calls without a seize call *)

(** Claim C1 (the code departs from it): a Compound v2 liquidation call with
    no seize call among its descendants should be passed over without a record
    and without an error. Here the call is on the cEther market, its
    descendants hold no seize call, and the pass raises [AttributeError]:
    [seize_trace] is [None] when its [inputs] are read. *)
Theorem liquidation_without_seize_raises :
  compound_liquidations._get_seize_call
    (get_child_traces
       (transaction_hash Scenario.ether_liquidation)
       (trace_address Scenario.ether_liquidation)
       [Scenario.ether_liquidation]) = None
  /\ compound_liquidations.get_compound_liquidations Scenario.WETH_ADDRESS
       [Scenario.ether_liquidation] Scenario.registry Scenario.w3
     = Raise AttributeError.
Proof. split; vm_compute; reflexivity. Qed.

(** ** The end-to-end scenario *)

(** Claim C2, as the specification words it, does not hold: the pass does not
    return one record with debt token 0xusdc and collateral token 0xdai. *)
Lemma scenario_addresses_not_as_specified :
  ~ exists l,
      compound_liquidations.get_compound_liquidations Scenario.WETH_ADDRESS
        Scenario.traces Scenario.registry Scenario.w3 = Return [l]
      /\ Liquidation.debt_token_address l = "0xusdc"
      /\ Liquidation.collateral_token_address l = "0xdai"
      /\ Liquidation.debt_purchase_amount l = VInt 1000
      /\ Liquidation.received_amount l = Scenario.float_10.
Proof.
  intros (l & Hl & Hdebt & _).
  assert (compound_liquidations.get_compound_liquidations Scenario.WETH_ADDRESS
            Scenario.traces Scenario.registry Scenario.w3
          = Return [Scenario.record "0xusdc" "0xdai" (VInt 1000)]) as E
    by reflexivity.
  rewrite E in Hl. inversion Hl; subst l. discriminate Hdebt.
Qed.

(** Claim C2, amended: in the scenario, with the rate of 0xc_dai resolved to
    0.02 at the block of the trace, the pass returns exactly one record, whose
    collateral token is 0xusdc (the underlying of the called market), whose
    debt token is 0xdai (the underlying of [cTokenCollateral]), whose
    [debt_purchase_amount] is 1000 and whose [received_amount] is 10.0. *)
Theorem scenario_liquidation (WETH_ADDRESS : string) (w3 : Web3) :
  compound_liquidations.get_underlying_ctoken_exchange_rate
    (VStr "0xc_dai") 13000000 w3 Scenario.registry
    = Return Scenario.float_0_02 ->
  compound_liquidations.get_compound_liquidations
    WETH_ADDRESS Scenario.traces Scenario.registry w3
  = Return [Scenario.record "0xusdc" "0xdai" (VInt 1000)].
Proof.
  intros Hrate.
  assert (compound_liquidations.inspect_trace WETH_ADDRESS Scenario.traces
            Scenario.registry w3 [] Scenario.token_liquidation
          = Return [Scenario.record "0xusdc" "0xdai" (VInt 1000)]) as Hstep.
  { apply (ctoken_step WETH_ADDRESS Scenario.traces Scenario.registry w3 []
             Scenario.token_liquidation (Scenario.seize_trace [0; 1])
             Scenario.liquidate_inputs Scenario.seize_inputs
             "0xc_dai" "0xc_usdc" Scenario.float_0_02
             (VStr "0xB") "0xusdc" "0xdai" (VStr "0xL") (VInt 1000) (VInt 500)
             Scenario.float_10);
      first [exact Hrate | reflexivity]. }
  unfold compound_liquidations.get_compound_liquidations.
  unfold Scenario.traces at 2.
  cbn [compound_liquidations.inspect_traces].
  rewrite Hstep, bind_Return.
  rewrite other_trace_step by (left; discriminate).
  reflexivity.
Qed.

Lemma scenario_liquidation_witness :
  compound_liquidations.get_underlying_ctoken_exchange_rate
    (VStr "0xc_dai") 13000000 Scenario.w3 Scenario.registry
    = Return Scenario.float_0_02
  /\ compound_liquidations.get_compound_liquidations
       Scenario.WETH_ADDRESS Scenario.traces Scenario.registry Scenario.w3
     = Return [Scenario.record "0xusdc" "0xdai" (VInt 1000)].
Proof.
  split; [reflexivity|].
  apply (scenario_liquidation Scenario.WETH_ADDRESS Scenario.w3).
  reflexivity.
Defined.

(** ** The two variants *)

(** Claim C4: a Compound v2 liquidation call decoded with the [CToken]
    interface, whose descendants hold a seize call, adds one record, with
    [collateral_token_address = comp_markets[trace.to_address]],
    [debt_token_address = comp_markets[trace.inputs["cTokenCollateral"]]],
    [debt_purchase_amount = trace.inputs["repayAmount"]] and
    [received_amount = seize_trace.inputs["seizeTokens"] * rate]; the record
    is among those the pass returns. *)
Theorem token_variant_record (WETH_ADDRESS : string)
    (traces : list ClassifiedTrace) (comp_markets : gmap string string)
    (w3 : Web3) (t s : ClassifiedTrace) (ins sins : gmap string PyVal)
    (c a collateral debt : string) (rate amount : float)
    (borrower liquidator repay tokens : PyVal) :
  classification t = liquidate ->
  protocol t = Some compound_v2 ->
  abi_name t = Some "CToken" ->
  compound_liquidations._get_seize_call
    (get_child_traces (transaction_hash t) (trace_address t) traces) = Some s ->
  inputs t = Some ins ->
  inputs s = Some sins ->
  ins !! "cTokenCollateral" = Some (VStr c) ->
  ins !! "borrower" = Some borrower ->
  ins !! "repayAmount" = Some repay ->
  sins !! "liquidator" = Some liquidator ->
  sins !! "seizeTokens" = Some tokens ->
  to_address t = Some a ->
  comp_markets !! a = Some collateral ->
  comp_markets !! c = Some debt ->
  compound_liquidations.get_underlying_ctoken_exchange_rate
    (VStr c) (block_number t) w3 comp_markets = Return rate ->
  py_mul tokens rate = Return amount ->
  exists r,
    Liquidation.collateral_token_address r = collateral
    /\ Liquidation.debt_token_address r = debt
    /\ Liquidation.debt_purchase_amount r = repay
    /\ Liquidation.received_amount r = amount
    /\ Liquidation.liquidated_user r = borrower
    /\ Liquidation.liquidator_user r = liquidator
    /\ (forall ls,
          compound_liquidations.inspect_trace
            WETH_ADDRESS traces comp_markets w3 ls t = Return (ls ++ [r])%list)
    /\ (forall out,
          In t traces ->
          compound_liquidations.get_compound_liquidations
            WETH_ADDRESS traces comp_markets w3 = Return out ->
          In r out).
Proof.
  intros Hc Hp Habi Hs Hins Hsins Hcol Hb Hrepay Hl Htok Hto Hcoll Hdebt
    Hrate Hmul.
  pose proof (fun ls =>
    ctoken_step WETH_ADDRESS traces comp_markets w3 ls t s ins sins c a rate
      borrower collateral debt liquidator repay tokens amount
      Hc Hp Habi Hs Hins Hsins Hcol Hb Hrepay Hl Htok Hto Hcoll Hdebt
      Hrate Hmul) as Hstep.
  eexists; split_and!; [.. | exact Hstep | ]; [reflexivity.. | ].
  intros out Hin Hout.
  eapply step_record_in_pass; [exact Hin | apply (Hstep []) | exact Hout].
Qed.

Lemma token_variant_record_witness :
  exists r,
    Liquidation.collateral_token_address r = "0xusdc"
    /\ Liquidation.debt_token_address r = "0xdai"
    /\ Liquidation.debt_purchase_amount r = VInt 1000
    /\ Liquidation.received_amount r = Scenario.float_10
    /\ Liquidation.liquidated_user r = VStr "0xB"
    /\ Liquidation.liquidator_user r = VStr "0xL"
    /\ (forall ls,
          compound_liquidations.inspect_trace Scenario.WETH_ADDRESS
            Scenario.traces Scenario.registry Scenario.w3 ls
            Scenario.token_liquidation = Return (ls ++ [r])%list)
    /\ (forall out,
          In Scenario.token_liquidation Scenario.traces ->
          compound_liquidations.get_compound_liquidations Scenario.WETH_ADDRESS
            Scenario.traces Scenario.registry Scenario.w3 = Return out ->
          In r out).
Proof.
  apply (token_variant_record Scenario.WETH_ADDRESS Scenario.traces
           Scenario.registry Scenario.w3 Scenario.token_liquidation
           (Scenario.seize_trace [0; 1]) Scenario.liquidate_inputs
           Scenario.seize_inputs "0xc_dai" "0xc_usdc" "0xusdc" "0xdai"
           Scenario.float_0_02 Scenario.float_10
           (VStr "0xB") (VStr "0xL") (VInt 1000) (VInt 500));
    reflexivity.
Defined.

(** Claim C5: a Compound v2 liquidation call decoded with the [CEther]
    interface, whose descendants hold a seize call, adds one record, with
    [collateral_token_address = WETH_ADDRESS],
    [debt_token_address = comp_markets[trace.inputs["cTokenCollateral"]]],
    [debt_purchase_amount = trace.value] and
    [received_amount = seize_trace.inputs["seizeTokens"] * rate]; the record
    is among those the pass returns. *)
Theorem native_variant_record (WETH_ADDRESS : string)
    (traces : list ClassifiedTrace) (comp_markets : gmap string string)
    (w3 : Web3) (t s : ClassifiedTrace) (ins sins : gmap string PyVal)
    (c debt : string) (rate amount : float)
    (borrower liquidator tokens : PyVal) :
  classification t = liquidate ->
  protocol t = Some compound_v2 ->
  abi_name t = Some "CEther" ->
  compound_liquidations._get_seize_call
    (get_child_traces (transaction_hash t) (trace_address t) traces) = Some s ->
  inputs t = Some ins ->
  inputs s = Some sins ->
  ins !! "cTokenCollateral" = Some (VStr c) ->
  ins !! "borrower" = Some borrower ->
  sins !! "liquidator" = Some liquidator ->
  sins !! "seizeTokens" = Some tokens ->
  comp_markets !! c = Some debt ->
  compound_liquidations.get_underlying_ctoken_exchange_rate
    (VStr c) (block_number t) w3 comp_markets = Return rate ->
  py_mul tokens rate = Return amount ->
  exists r,
    Liquidation.collateral_token_address r = WETH_ADDRESS
    /\ Liquidation.debt_token_address r = debt
    /\ Liquidation.debt_purchase_amount r = val_of_int (value t)
    /\ Liquidation.received_amount r = amount
    /\ Liquidation.liquidated_user r = borrower
    /\ Liquidation.liquidator_user r = liquidator
    /\ (forall ls,
          compound_liquidations.inspect_trace
            WETH_ADDRESS traces comp_markets w3 ls t = Return (ls ++ [r])%list)
    /\ (forall out,
          In t traces ->
          compound_liquidations.get_compound_liquidations
            WETH_ADDRESS traces comp_markets w3 = Return out ->
          In r out).
Proof.
  intros Hc Hp Habi Hs Hins Hsins Hcol Hb Hl Htok Hdebt Hrate Hmul.
  pose proof (fun ls =>
    cether_step WETH_ADDRESS traces comp_markets w3 ls t s ins sins c rate
      borrower debt liquidator tokens amount
      Hc Hp Habi Hs Hins Hsins Hcol Hb Hl Htok Hdebt Hrate Hmul) as Hstep.
  eexists; split_and!; [.. | exact Hstep | ]; [reflexivity.. | ].
  intros out Hin Hout.
  eapply step_record_in_pass; [exact Hin | apply (Hstep []) | exact Hout].
Qed.

Lemma native_variant_record_witness :
  exists r,
    Liquidation.collateral_token_address r = Scenario.WETH_ADDRESS
    /\ Liquidation.debt_token_address r = "0xdai"
    /\ Liquidation.debt_purchase_amount r = VInt 1000
    /\ Liquidation.received_amount r = Scenario.float_10
    /\ Liquidation.liquidated_user r = VStr "0xB"
    /\ Liquidation.liquidator_user r = VStr "0xL"
    /\ (forall ls,
          compound_liquidations.inspect_trace Scenario.WETH_ADDRESS
            [Scenario.ether_liquidation; Scenario.seize_trace [0; 0]]
            Scenario.registry Scenario.w3 ls
            Scenario.ether_liquidation = Return (ls ++ [r])%list)
    /\ (forall out,
          In Scenario.ether_liquidation
            [Scenario.ether_liquidation; Scenario.seize_trace [0; 0]] ->
          compound_liquidations.get_compound_liquidations Scenario.WETH_ADDRESS
            [Scenario.ether_liquidation; Scenario.seize_trace [0; 0]]
            Scenario.registry Scenario.w3 = Return out ->
          In r out).
Proof.
  apply (native_variant_record Scenario.WETH_ADDRESS
           [Scenario.ether_liquidation; Scenario.seize_trace [0; 0]]
           Scenario.registry Scenario.w3 Scenario.ether_liquidation
           (Scenario.seize_trace [0; 0]) Scenario.liquidate_inputs
           Scenario.seize_inputs "0xc_dai" "0xdai"
           Scenario.float_0_02 Scenario.float_10
           (VStr "0xB") (VStr "0xL") (VInt 500));
    reflexivity.
Defined.

(** ** Failures during the pass *)

(** The pass returns exactly when every trace can be looked at without an
    exception. *)
Lemma get_compound_liquidations_returns (WETH_ADDRESS : string)
    (traces : list ClassifiedTrace) (comp_markets : gmap string string)
    (w3 : Web3) :
  returns (compound_liquidations.get_compound_liquidations
             WETH_ADDRESS traces comp_markets w3)
  <-> Forall (fun t =>
        returns (compound_liquidations.inspect_trace
                   WETH_ADDRESS traces comp_markets w3 [] t)) traces.
Proof.
  split.
  - intros [out Hout]. apply Forall_forall. intros t Hin.
    apply list_elem_of_In in Hin.
    destruct (inspect_traces_In WETH_ADDRESS traces comp_markets w3 traces out t
                Hout Hin) as (new & Hnew & _).
    by exists new.
  - apply inspect_traces_returns.
Qed.

(** Claim C7, as the specification words it, does not hold: a trace without
    its expected inputs, after a liquidation that reconstructs, leaves the
    pass without any record. *)
Lemma failure_not_scoped_to_trace :
  ~ failure_scoped_to_trace Scenario.WETH_ADDRESS
      (Scenario.traces ++ [Scenario.malformed_liquidation])
      Scenario.registry Scenario.w3.
Proof.
  intros (records & Hrecords & _).
  assert (compound_liquidations.get_compound_liquidations Scenario.WETH_ADDRESS
            (Scenario.traces ++ [Scenario.malformed_liquidation])
            Scenario.registry Scenario.w3
          = Raise (KeyError (VStr "cTokenCollateral"))) as E by reflexivity.
  rewrite E in Hrecords. discriminate Hrecords.
Qed.

(** Claim C7, amended: an exception raised while a trace is looked at (a
    missing input key, a registry miss, a failed chain query) is the outcome
    of the whole pass; the records of the traces before it are not returned,
    and the traces after it are not looked at. The pass has one mode. *)
Theorem first_failure_aborts_pass (WETH_ADDRESS : string)
    (comp_markets : gmap string string) (w3 : Web3)
    (pre post : list ClassifiedTrace) (t : ClassifiedTrace) (e : exn) :
  Forall (fun x =>
    returns (compound_liquidations.inspect_trace
               WETH_ADDRESS (pre ++ t :: post) comp_markets w3 [] x)) pre ->
  compound_liquidations.inspect_trace
    WETH_ADDRESS (pre ++ t :: post) comp_markets w3 [] t = Raise e ->
  compound_liquidations.get_compound_liquidations
    WETH_ADDRESS (pre ++ t :: post) comp_markets w3 = Raise e.
Proof.
  intros Hpre Ht. unfold compound_liquidations.get_compound_liquidations.
  by apply inspect_traces_raise.
Qed.

Lemma first_failure_aborts_pass_witness :
  compound_liquidations.get_compound_liquidations Scenario.WETH_ADDRESS
    (Scenario.traces ++ Scenario.malformed_liquidation :: [])
    Scenario.registry Scenario.w3
  = Raise (KeyError (VStr "cTokenCollateral")).
Proof.
  apply (first_failure_aborts_pass Scenario.WETH_ADDRESS Scenario.registry
           Scenario.w3 Scenario.traces [] Scenario.malformed_liquidation).
  - repeat constructor; apply is_return_returns; reflexivity.
  - reflexivity.
Defined.

(** ** The exchange rate *)

(** Claim C3: for a collateral token whose lower-cased address is in the
    registry, with [r] the raw rate of the token at the block, [d_u] the
    decimals of the underlying token and [d_c] those of the collateral token,
    [get_underlying_ctoken_exchange_rate] is [r / 10 ** (18 + d_u - d_c)]; for
    an exponent that is not negative this is the correctly rounded quotient
    of the integers [r] and [10 ^ (18 + d_u - d_c)]. *)
Theorem exchange_rate_formula (c_token_address u a ua : string)
    (block r d_u d_c : Z) (w3 : Web3) (comp_markets : gmap string string) :
  comp_markets !! lower c_token_address = Some u ->
  toChecksumAddress w3 (VStr c_token_address) = Return a ->
  exchangeRateCurrent w3 a block = Return r ->
  toChecksumAddress w3 (VStr u) = Return ua ->
  decimals w3 ua = Return d_u ->
  decimals w3 a = Return d_c ->
  compound_liquidations.get_underlying_ctoken_exchange_rate
    (VStr c_token_address) block w3 comp_markets
  = (scale ← py_pow 10 (18 + d_u - d_c); py_truediv r scale)
  /\ (0 <= 18 + d_u - d_c ->
      compound_liquidations.get_underlying_ctoken_exchange_rate
        (VStr c_token_address) block w3 comp_markets
      = int_truediv r (10 ^ (18 + d_u - d_c))).
Proof.
  intros Hu Ha Hr Hua Hdu Hdc.
  assert (compound_liquidations.get_underlying_ctoken_exchange_rate
            (VStr c_token_address) block w3 comp_markets
          = (scale ← py_pow 10 (18 + d_u - d_c); py_truediv r scale)) as E.
  { unfold compound_liquidations.get_underlying_ctoken_exchange_rate,
      compound_liquidations.get_erc20_token_decimals.
    rewrite Ha. simpl. rewrite Hr. simpl. unfold getitem. rewrite Hu. simpl.
    rewrite Hua. simpl. rewrite Hdu. simpl. rewrite Hdc. reflexivity. }
  split; [exact E|].
  intros Hexp. rewrite E. unfold py_pow.
  destruct (0 <=? 18 + d_u - d_c) eqn:Hle; [reflexivity|].
  apply Z.leb_gt in Hle. lia.
Qed.

Lemma exchange_rate_formula_witness :
  compound_liquidations.get_underlying_ctoken_exchange_rate
    (VStr "0xc_dai") 13000000 Scenario.w3 Scenario.registry
  = (scale ← py_pow 10 (18 + 18 - 8); py_truediv (2 * 10 ^ 26) scale)
  /\ (0 <= 18 + 18 - 8 ->
      compound_liquidations.get_underlying_ctoken_exchange_rate
        (VStr "0xc_dai") 13000000 Scenario.w3 Scenario.registry
      = int_truediv (2 * 10 ^ 26) (10 ^ (18 + 18 - 8))).
Proof.
  apply (exchange_rate_formula "0xc_dai" "0xdai" "0xc_dai" "0xdai"
           13000000 (2 * 10 ^ 26) 18 8 Scenario.w3 Scenario.registry);
    reflexivity.
Defined.

(** ** The market registry *)

Section Registry.

Import compound_liquidations.

Variable w3 : Web3.

(** What the loop leaves under a key: the entry it started with when no
    market is spelled like the key, and otherwise the lower-cased underlying
    token of a market spelled like the key. *)
Lemma add_markets_lookup markets m reg k :
  add_markets w3 markets m = Return reg ->
  (reg !! k = m !! k
   /\ forall c, In c markets -> c <> V2_C_ETHER -> lower c <> k)
  \/ (exists c u,
        In c markets /\ c <> V2_C_ETHER /\ lower c = k
        /\ underlying w3 c = Return u /\ reg !! k = Some (lower u)).
Proof.
  revert m. induction markets as [|x markets IH]; intros m H; simpl in H.
  - inversion H; subst reg. left. split; [reflexivity|]. intros c [].
  - bind_inv H. destruct (IH a H) as [[Hk Hno]|(c & u & Hin & Hne & Hc & Hu & Hk)].
    + unfold add_market in Ha. case_bool_decide as Hx.
      * bind_inv Ha. inversion Ha; subst a; clear Ha.
        destruct (decide (lower x = k)) as [Hxk|Hxk].
        -- right. exists x, a0. rewrite Hk, Hxk, lookup_insert_eq.
           repeat split; try assumption. by left.
        -- left. rewrite Hk, lookup_insert_ne by assumption.
           split; [reflexivity|]. intros c [<-|Hin] Hne; auto.
      * inversion Ha; subst a; clear Ha. left. split; [assumption|].
        intros c [<-|Hin] Hne; [|auto]. exfalso. apply Hne.
        by apply dec_stable.
    + right. exists c, u. repeat split; try assumption. by right.
Qed.

(** The loop returns when each query of an underlying token does. *)
Lemma add_markets_returns markets m :
  (forall c, In c markets -> c <> V2_C_ETHER -> returns (underlying w3 c)) ->
  returns (add_markets w3 markets m).
Proof.
  revert m. induction markets as [|x markets IH]; intros m H; simpl.
  - by eexists.
  - unfold add_market. case_bool_decide as Hx.
    + destruct (H x (or_introl eq_refl) Hx) as [u ->]. simpl.
      apply IH. intros c Hin. apply H. by right.
    + simpl. apply IH. intros c Hin. apply H. by right.
Qed.

(** Every key of the registry is lower-cased. *)
Lemma get_all_comp_markets_lower_keys reg :
  get_all_comp_markets w3 = Return reg -> lower_keys reg.
Proof.
  unfold get_all_comp_markets. intros H. bind_inv H. intros k [v Hv].
  destruct (add_markets_lookup a ∅ reg k H)
    as [[Hk _]|(c & u & _ & _ & Hc & _)].
  - rewrite Hk, lookup_empty in Hv. discriminate.
  - rewrite <- Hc. apply lower_idemp.
Qed.

End Registry.

Lemma V2_C_ETHER_has_upper : has_upper compound_liquidations.V2_C_ETHER.
Proof. discriminate. Qed.

(** Claim C6: when the comptroller enumerates [markets], spelled one way, and
    the underlying token of each of them but cETH can be queried, the registry
    that [get_all_comp_markets] returns maps the lower-cased address of every
    enumerated market other than cETH to its lower-cased underlying token, and
    has no entry for the cETH address, lower-cased or not. *)
Theorem comp_markets_registry (w3 : Web3) (markets : list string) :
  getAllMarkets w3 compound_liquidations.V2_COMPTROLLER_ADDRESS
    = Return markets ->
  (forall c, In c markets -> c <> compound_liquidations.V2_C_ETHER ->
     returns (underlying w3 c)) ->
  one_spelling (compound_liquidations.V2_C_ETHER :: markets) ->
  exists reg,
    compound_liquidations.get_all_comp_markets w3 = Return reg
    /\ (forall c, In c markets -> c <> compound_liquidations.V2_C_ETHER ->
          exists u, underlying w3 c = Return u
                    /\ reg !! lower c = Some (lower u))
    /\ reg !! compound_liquidations.V2_C_ETHER = None
    /\ reg !! lower compound_liquidations.V2_C_ETHER = None.
Proof.
  intros Hmarkets Hqueries Hspell.
  destruct (add_markets_returns w3 markets ∅ Hqueries) as [reg Hreg].
  exists reg. split.
  { unfold compound_liquidations.get_all_comp_markets.
    rewrite Hmarkets. exact Hreg. }
  split; [|split].
  - intros c Hin Hne.
    destruct (add_markets_lookup w3 markets ∅ reg (lower c) Hreg)
      as [[_ Hno]|(c' & u & Hin' & Hne' & Hc' & Hu & Hk)].
    + exfalso. by apply (Hno c Hin Hne).
    + assert (c' = c) as -> by (apply Hspell; simpl; auto).
      by exists u.
  - destruct (add_markets_lookup w3 markets ∅ reg
                compound_liquidations.V2_C_ETHER Hreg)
      as [[Hk _]|(c & u & _ & _ & Hc & _)].
    + by rewrite Hk, lookup_empty.
    + exfalso. apply V2_C_ETHER_has_upper.
      rewrite <- Hc. apply lower_idemp.
  - destruct (add_markets_lookup w3 markets ∅ reg
                (lower compound_liquidations.V2_C_ETHER) Hreg)
      as [[Hk _]|(c & u & Hin & Hne & Hc & _)].
    + by rewrite Hk, lookup_empty.
    + exfalso. apply Hne. apply Hspell; simpl; auto.
Qed.

Lemma scenario_one_spelling :
  one_spelling
    [compound_liquidations.V2_C_ETHER;
     "0xC_DAI"; compound_liquidations.V2_C_ETHER; "0xC_USDC"].
Proof.
  intros a b Ha Hb E. simpl in Ha, Hb.
  destruct Ha as [<-|[<-|[<-|[<-|[]]]]];
    destruct Hb as [<-|[<-|[<-|[<-|[]]]]];
    first [reflexivity | discriminate E].
Qed.

Lemma comp_markets_registry_witness :
  exists reg,
    compound_liquidations.get_all_comp_markets Scenario.w3 = Return reg
    /\ (forall c,
          In c ["0xC_DAI"; compound_liquidations.V2_C_ETHER; "0xC_USDC"] ->
          c <> compound_liquidations.V2_C_ETHER ->
          exists u, underlying Scenario.w3 c = Return u
                    /\ reg !! lower c = Some (lower u))
    /\ reg !! compound_liquidations.V2_C_ETHER = None
    /\ reg !! lower compound_liquidations.V2_C_ETHER = None.
Proof.
  apply (comp_markets_registry Scenario.w3
           ["0xC_DAI"; compound_liquidations.V2_C_ETHER; "0xC_USDC"]).
  - reflexivity.
  - intros c Hin Hne. simpl in Hin.
    destruct Hin as [<-|[<-|[<-|[]]]];
      [apply is_return_returns; reflexivity
      | exfalso; apply Hne; reflexivity
      | apply is_return_returns; reflexivity].
  - exact scenario_one_spelling.
Defined.

(** ** The cEther inspector *)

Lemma inspect_loop_no_match (w3 : Web3) (tx : Transaction.t)
    (classified_traces todo : list ClassifiedTrace) :
  (forall t, In t todo -> function_name t <> Some "liquidateBorrow") ->
  compound_v2_ceth.inspect_loop w3 tx classified_traces todo
  = Return CethLiquidation.Liquidation_default.
Proof.
  induction todo as [|t todo IH]; intros H; simpl; [reflexivity|].
  case_bool_decide as Hname.
  - exfalso. by apply (H t (or_introl eq_refl)).
  - simpl. apply IH. intros x Hin. apply H. by right.
Qed.

(** Claim C8, as the specification words it, does not hold: over traces none
    of which calls [liquidateBorrow], the inspector returns a [Liquidation]
    object, the one built by [Liquidation()]. *)
Lemma no_match_returns_placeholder :
  ~ ((forall t, In t [Scenario.seize_trace [0]] ->
        function_name t <> Some "liquidateBorrow") ->
     forall l,
       compound_v2_ceth.inspect_compound_v2_ceth
         Scenario.w3 Scenario.tx [Scenario.seize_trace [0]] <> Return l).
Proof.
  intros H. apply (H ltac:(by intros t [<-|[]])
                     CethLiquidation.Liquidation_default).
  reflexivity.
Qed.

(** Claim C8, amended: over traces none of which has the function name
    [liquidateBorrow], [inspect_compound_v2_ceth] returns the record built by
    [Liquidation()]; its return type is [Liquidation], not an optional. *)
Theorem no_liquidateBorrow_returns_default (w3 : Web3) (tx : Transaction.t)
    (classified_traces : list ClassifiedTrace) :
  (forall t, In t classified_traces ->
     function_name t <> Some "liquidateBorrow") ->
  compound_v2_ceth.inspect_compound_v2_ceth w3 tx classified_traces
  = Return CethLiquidation.Liquidation_default.
Proof. apply inspect_loop_no_match. Qed.

Lemma no_liquidateBorrow_returns_default_witness :
  compound_v2_ceth.inspect_compound_v2_ceth
    Scenario.w3 Scenario.tx [Scenario.seize_trace [0]]
  = Return CethLiquidation.Liquidation_default.
Proof.
  apply (no_liquidateBorrow_returns_default Scenario.w3 Scenario.tx
           [Scenario.seize_trace [0]]).
  intros t [<-|[]]. discriminate.
Defined.

(** ** The collateral source *)

Lemma attribute_trace_attributes tx liquidation_contract source t :
  compound_v2_ceth.attribute_trace tx liquidation_contract source t
  = if attributes tx liquidation_contract t then attribution tx t else source.
Proof.
  unfold compound_v2_ceth.attribute_trace, attributes, attribution.
  repeat case_bool_decide; reflexivity.
Qed.

(** Claim C9, as the specification words it, does not hold: the destination
    of the transaction equals the origin of the call of [liquidateBorrow] on
    the liquidation contract, and the source is [other], because the
    destination is lower-cased before it is compared. *)
Lemma equal_addresses_not_attributed :
  ~ (Some (Transaction.to_address Scenario.tx)
       = from_address (Scenario.liquidateBorrow_from "0xB07") ->
     to_address (Scenario.liquidateBorrow_from "0xB07") = Some "0xc_usdc" ->
     function_name (Scenario.liquidateBorrow_from "0xB07")
       = Some "liquidateBorrow" ->
     compound_v2_ceth.find_collateral_source
       [Scenario.liquidateBorrow_from "0xB07"] Scenario.tx (Some "0xc_usdc")
     = searcher_contract).
Proof.
  intros H. specialize (H eq_refl eq_refl eq_refl). discriminate H.
Qed.

(** Claim C9, amended: [find_collateral_source] compares the lower-cased
    destination and origin of the transaction with the origin of the calls of
    [liquidateBorrow] on the liquidation contract. The last call that comes
    from one of the two decides: [searcher_contract] when it comes from the
    lower-cased destination, [searcher_eoa] otherwise; without such a call the
    source is [other]. *)
Theorem find_collateral_source_last_match
    (classified_traces : list ClassifiedTrace) (tx : Transaction.t)
    (liquidation_contract : option string) :
  compound_v2_ceth.find_collateral_source
    classified_traces tx liquidation_contract
  = match last (List.filter (attributes tx liquidation_contract)
                  classified_traces) with
    | Some t => attribution tx t
    | None => other
    end.
Proof.
  unfold compound_v2_ceth.find_collateral_source.
  induction classified_traces as [|t l IH] using rev_ind; [reflexivity|].
  rewrite fold_left_app, List.filter_app. simpl.
  rewrite attribute_trace_attributes.
  destruct (attributes tx liquidation_contract t).
  - by rewrite last_snoc.
  - by rewrite app_nil_r.
Qed.

Example last_call_decides :
  compound_v2_ceth.find_collateral_source
    [Scenario.liquidateBorrow_from "0xb07"; Scenario.liquidateBorrow_from "0xe0a"]
    Scenario.tx (Some "0xc_usdc") = searcher_eoa
  /\ compound_v2_ceth.find_collateral_source
       [Scenario.liquidateBorrow_from "0xb07"; Scenario.liquidateBorrow_from "0x0"]
       Scenario.tx (Some "0xc_usdc") = searcher_contract.
Proof. split; reflexivity. Qed.

(** ** Registry keys and the case of addresses *)

Lemma lower_keys_upper_absent (comp_markets : gmap string string) (k : string) :
  lower_keys comp_markets -> has_upper k -> comp_markets !! k = None.
Proof.
  intros Hkeys Hk. destruct (comp_markets !! k) as [v|] eqn:E; [|reflexivity].
  exfalso. apply Hk, Hkeys. by exists v.
Qed.

(** With a registry of lower-cased keys, a liquidation call that is looked up
    under an address with an upper-case character raises; the exception is a
    [KeyError] of one of the two lookups once the rate and the borrower have
    been read. *)
Lemma upper_case_key_raises (WETH_ADDRESS : string)
    (traces : list ClassifiedTrace) (comp_markets : gmap string string)
    (w3 : Web3) (ls : list Liquidation.t) (t : ClassifiedTrace)
    (ins : gmap string PyVal) (c : string) :
  lower_keys comp_markets ->
  classification t = liquidate ->
  protocol t = Some compound_v2 ->
  inputs t = Some ins ->
  ins !! "cTokenCollateral" = Some (VStr c) ->
  (abi_name t = Some "CEther" /\ has_upper c)
  \/ (abi_name t = Some "CToken"
      /\ (has_upper c \/ exists a, to_address t = Some a /\ has_upper a)) ->
  raises (compound_liquidations.inspect_trace
            WETH_ADDRESS traces comp_markets w3 ls t)
  /\ (forall rate borrower,
        compound_liquidations.get_underlying_ctoken_exchange_rate
          (VStr c) (block_number t) w3 comp_markets = Return rate ->
        ins !! "borrower" = Some borrower ->
        exists k,
          compound_liquidations.inspect_trace
            WETH_ADDRESS traces comp_markets w3 ls t = Raise (KeyError k)
          /\ (k = VStr c
              \/ (abi_name t = Some "CToken"
                  /\ k = val_of_str (to_address t)))).
Proof.
  intros Hkeys Hc Hp Hins Hcol Hcase.
  assert (forall rate borrower,
    compound_liquidations.get_underlying_ctoken_exchange_rate
      (VStr c) (block_number t) w3 comp_markets = Return rate ->
    ins !! "borrower" = Some borrower ->
    exists k,
      compound_liquidations.inspect_trace
        WETH_ADDRESS traces comp_markets w3 ls t = Raise (KeyError k)
      /\ (k = VStr c
          \/ (abi_name t = Some "CToken" /\ k = val_of_str (to_address t))))
    as Hkey.
  { intros rate borrower Hrate Hb.
    unfold compound_liquidations.inspect_trace.
    rewrite Hc, Hp, Hins. simpl. unfold getitem. rewrite Hcol. simpl.
    rewrite Hrate. simpl.
    destruct Hcase as [[Habi Hup]|[Habi Hup]]; rewrite Habi; simpl;
      rewrite Hb; simpl; unfold getitem.
    - rewrite (lower_keys_upper_absent _ _ Hkeys Hup). simpl. eauto.
    - destruct (to_address t) as [a|] eqn:Hto; simpl; [|eauto].
      unfold getitem.
      destruct (comp_markets !! a) as [collateral|] eqn:Ha; simpl; [|eauto].
      destruct Hup as [Hup|(a' & Ha' & Hup)].
      + unfold getitem.
        rewrite (lower_keys_upper_absent _ _ Hkeys Hup). simpl. eauto.
      + inversion Ha'; subst a'.
        rewrite (lower_keys_upper_absent _ _ Hkeys Hup) in Ha. discriminate. }
  split; [|exact Hkey].
  destruct (compound_liquidations.get_underlying_ctoken_exchange_rate
              (VStr c) (block_number t) w3 comp_markets) as [rate|e] eqn:Hrate.
  - destruct (ins !! "borrower") as [borrower|] eqn:Hb.
    + destruct (Hkey rate borrower eq_refl eq_refl) as (k & Hk & _).
      by exists (KeyError k).
    + unfold compound_liquidations.inspect_trace.
      rewrite Hc, Hp, Hins. simpl. unfold getitem. rewrite Hcol. simpl.
      rewrite Hrate. simpl.
      destruct Hcase as [[Habi _]|[Habi _]]; rewrite Habi; simpl;
        rewrite Hb; simpl; by eexists.
  - unfold compound_liquidations.inspect_trace.
    rewrite Hc, Hp, Hins. simpl. unfold getitem. rewrite Hcol. simpl.
    rewrite Hrate. simpl. by eexists.
Qed.

(** Claim C10, as the specification words it, does not hold: the registry is
    the one [get_all_comp_markets] builds, the called address of a cEther
    liquidation has upper-case characters, and no lookup fails. *)
Lemma upper_case_to_address_reconstructs :
  ~ (compound_liquidations.get_all_comp_markets Scenario.w3
       = Return Scenario.registry ->
     to_address Scenario.ether_liquidation
       = Some compound_liquidations.V2_C_ETHER ->
     has_upper compound_liquidations.V2_C_ETHER ->
     exists k,
       compound_liquidations.get_compound_liquidations Scenario.WETH_ADDRESS
         [Scenario.ether_liquidation; Scenario.seize_trace [0; 0]]
         Scenario.registry Scenario.w3 = Raise (KeyError k)).
Proof.
  intros H.
  destruct (H eq_refl eq_refl V2_C_ETHER_has_upper) as [k Hk].
  assert (compound_liquidations.get_compound_liquidations Scenario.WETH_ADDRESS
            [Scenario.ether_liquidation; Scenario.seize_trace [0; 0]]
            Scenario.registry Scenario.w3
          = Return [Scenario.record Scenario.WETH_ADDRESS "0xdai" (VInt 1000)])
    as E by reflexivity.
  rewrite E in Hk. discriminate Hk.
Qed.

(** Claim C10, amended: the registry that [get_all_comp_markets] builds has
    lower-cased keys only, and [get_compound_liquidations] indexes it with
    [trace.inputs["cTokenCollateral"]] as it is in both variants and with
    [trace.to_address] as it is in the [CToken] variant only. So a [CEther] or
    [CToken] liquidation whose [cTokenCollateral] has an upper-case character,
    and a [CToken] liquidation whose [to_address] has one, is never
    reconstructed: looking at it raises, with a [KeyError] of one of these
    lookups once the rate and the borrower have been read. *)
Theorem upper_case_address_never_reconstructs (WETH_ADDRESS : string)
    (traces : list ClassifiedTrace) (comp_markets : gmap string string)
    (w3_markets w3 : Web3) (ls : list Liquidation.t) (t : ClassifiedTrace)
    (ins : gmap string PyVal) (c : string) :
  compound_liquidations.get_all_comp_markets w3_markets = Return comp_markets ->
  classification t = liquidate ->
  protocol t = Some compound_v2 ->
  inputs t = Some ins ->
  ins !! "cTokenCollateral" = Some (VStr c) ->
  (abi_name t = Some "CEther" /\ has_upper c)
  \/ (abi_name t = Some "CToken"
      /\ (has_upper c \/ exists a, to_address t = Some a /\ has_upper a)) ->
  lower_keys comp_markets
  /\ raises (compound_liquidations.inspect_trace
               WETH_ADDRESS traces comp_markets w3 ls t)
  /\ (forall rate borrower,
        compound_liquidations.get_underlying_ctoken_exchange_rate
          (VStr c) (block_number t) w3 comp_markets = Return rate ->
        ins !! "borrower" = Some borrower ->
        exists k,
          compound_liquidations.inspect_trace
            WETH_ADDRESS traces comp_markets w3 ls t = Raise (KeyError k)
          /\ (k = VStr c
              \/ (abi_name t = Some "CToken"
                  /\ k = val_of_str (to_address t)))).
Proof.
  intros Hreg Hc Hp Hins Hcol Hcase.
  pose proof (get_all_comp_markets_lower_keys w3_markets comp_markets Hreg)
    as Hkeys.
  split; [exact Hkeys|].
  by apply (upper_case_key_raises WETH_ADDRESS traces comp_markets w3 ls t ins c).
Qed.

Lemma upper_case_address_never_reconstructs_witness :
  lower_keys Scenario.registry
  /\ raises (compound_liquidations.inspect_trace
               Scenario.WETH_ADDRESS Scenario.traces Scenario.registry
               Scenario.w3 []
               (Scenario.liquidate_trace (Some "CToken") (Some "0xC_USDC") [0]
                  (Some Scenario.liquidate_inputs)))
  /\ (forall rate borrower,
        compound_liquidations.get_underlying_ctoken_exchange_rate
          (VStr "0xc_dai") 13000000 Scenario.w3 Scenario.registry
          = Return rate ->
        Scenario.liquidate_inputs !! "borrower" = Some borrower ->
        exists k,
          compound_liquidations.inspect_trace
            Scenario.WETH_ADDRESS Scenario.traces Scenario.registry
            Scenario.w3 []
            (Scenario.liquidate_trace (Some "CToken") (Some "0xC_USDC") [0]
               (Some Scenario.liquidate_inputs))
          = Raise (KeyError k)
          /\ (k = VStr "0xc_dai"
              \/ (Some "CToken" = Some "CToken"
                  /\ k = val_of_str (Some "0xC_USDC")))).
Proof.
  apply (upper_case_address_never_reconstructs Scenario.WETH_ADDRESS
           Scenario.traces Scenario.registry Scenario.w3 Scenario.w3 []
           (Scenario.liquidate_trace (Some "CToken") (Some "0xC_USDC") [0]
              (Some Scenario.liquidate_inputs))
           Scenario.liquidate_inputs "0xc_dai");
    try reflexivity.
  right. split; [reflexivity|]. right. exists "0xC_USDC".
  split; [reflexivity | discriminate].
Defined.

(** * Further properties of the code *)

(** ** The seize call *)

Lemma inputs_of_Return seize_trace o :
  compound_liquidations.inputs_of seize_trace = Return o ->
  exists s, seize_trace = Some s /\ o = inputs s.
Proof.
  destruct seize_trace as [s|]; simpl; intros H; [|discriminate].
  inversion H. by exists s.
Qed.

(** [_get_seize_call] returns the first trace classified as a seize, and
    [None] exactly when no trace is. *)
Theorem get_seize_call_first (child_traces : list ClassifiedTrace) :
  (forall s,
     compound_liquidations._get_seize_call child_traces = Some s
     <-> exists pre post,
           child_traces = (pre ++ s :: post)%list
           /\ classification s = seize
           /\ Forall (fun c => classification c <> seize) pre)
  /\ (compound_liquidations._get_seize_call child_traces = None
      <-> Forall (fun c => classification c <> seize) child_traces).
Proof.
  induction child_traces as [|c l [IHsome IHnone]]; simpl.
  - split.
    + intros s. split; [discriminate|].
      intros (pre & post & E & _). by destruct pre.
    + split; [constructor | reflexivity].
  - case_bool_decide as Hc; split.
    + intros s. split.
      * intros E. inversion E; subst s. exists [], l. by repeat split.
      * intros (pre & post & E & Hs & Hpre). destruct pre as [|x pre].
        -- inversion E. reflexivity.
        -- inversion E; subst x. inversion Hpre; subst. contradiction.
    + split; [discriminate|]. intros H. inversion H; subst. contradiction.
    + intros s. rewrite IHsome. split.
      * intros (pre & post & -> & Hs & Hpre).
        exists (c :: pre), post. repeat split; [assumption|].
        by constructor.
      * intros (pre & post & E & Hs & Hpre). destruct pre as [|x pre].
        -- inversion E; subst s. contradiction.
        -- inversion E; subst x l. inversion Hpre; subst.
           by exists pre, post.
    + rewrite IHnone. split.
      * intros H. by constructor.
      * intros H. by inversion H.
Qed.

Lemma get_seize_call_Some child_traces s :
  compound_liquidations._get_seize_call child_traces = Some s ->
  In s child_traces /\ classification s = seize.
Proof.
  induction child_traces as [|c l IH]; simpl; [discriminate|].
  case_bool_decide as Hc.
  - intros H. inversion H; subst s. split; [by left | exact Hc].
  - intros H. destruct (IH H) as [Hin Hs]. split; [by right | exact Hs].
Qed.

(** ** The records of a pass *)

Section PassFacts.

Import compound_liquidations.

Variable WETH_ADDRESS : string.
Variable traces : list ClassifiedTrace.
Variable comp_markets : gmap string string.
Variable w3 : Web3.

Local Abbreviation inspect_trace :=
  (inspect_trace WETH_ADDRESS traces comp_markets w3).
Local Abbreviation inspect_traces :=
  (inspect_traces WETH_ADDRESS traces comp_markets w3).

Lemma inspect_traces_concat todo out :
  inspect_traces todo [] = Return out
  <-> exists news,
        Forall2 (fun t new => inspect_trace [] t = Return new) todo news
        /\ out = concat news.
Proof.
  revert out. induction todo as [|t todo IH]; intros out.
  - simpl. split.
    + intros H. inversion H. exists []. split; [constructor | reflexivity].
    + intros (news & H & ->). inversion H. reflexivity.
  - rewrite inspect_traces_cons. split.
    + intros H. bind_inv H. bind_inv H. inversion H; subst out.
      apply IH in Ha0 as (news & Hnews & ->).
      exists (a :: news). split; [by constructor | reflexivity].
    + intros (news & H & ->). inversion H as [|? new ? news' Ht Hrest]; subst.
      rewrite Ht. simpl.
      assert (inspect_traces todo [] = Return (concat news')) as ->
        by (apply IH; eauto).
      reflexivity.
Qed.

(** What one trace adds, by shape: nothing when it takes neither branch,
    and otherwise one record that carries the provenance of the trace, the
    liquidator named by the seize call, and token addresses read from the
    registry. *)
Lemma inspect_trace_shape t new :
  inspect_trace [] t = Return new ->
  (matched t = false /\ new = [])
  \/ (matched t = true
      /\ exists r s ins sins c,
           new = [r]
           /\ record_provenance r = trace_provenance t
           /\ Liquidation.protocol r = compound_v2
           /\ _get_seize_call
                (get_child_traces (transaction_hash t) (trace_address t) traces)
              = Some s
           /\ inputs t = Some ins
           /\ inputs s = Some sins
           /\ ins !! "borrower" = Some (Liquidation.liquidated_user r)
           /\ sins !! "liquidator" = Some (Liquidation.liquidator_user r)
           /\ ins !! "cTokenCollateral" = Some (VStr c)
           /\ comp_markets !! c = Some (Liquidation.debt_token_address r)).
Proof.
  unfold compound_liquidations.inspect_trace, matched.
  destruct (bool_decide (classification t = liquidate)); simpl;
    [|intros H; inversion H; by left].
  destruct (bool_decide (protocol t = Some compound_v2)); simpl;
    [|intros H; inversion H; by left].
  intros H. bind_inv H. bind_inv H.
  destruct (inputs t) as [ins|] eqn:Hins; [|discriminate].
  simpl in Ha. unfold getitem in Ha.
  destruct (ins !! "cTokenCollateral") as [c'|] eqn:Hcol; [|discriminate].
  inversion Ha; subst a; clear Ha.
  destruct (bool_decide (abi_name t = Some "CEther")); simpl in *.
  - right. split; [reflexivity|].
    repeat bind_inv H. inversion H; subst new; clear H.
    apply inputs_of_Return in Ha2 as (s & Hs & ->).
    destruct c' as [| |c|]; try discriminate. simpl in Ha1.
    unfold getitem in Ha, Ha1, Ha3.
    destruct (ins !! "borrower") eqn:Hb; [|discriminate].
    destruct (comp_markets !! c) eqn:Hdebt; [|discriminate].
    destruct (inputs s) as [sins|] eqn:Hsins; [|discriminate].
    simpl in Ha3. unfold getitem in Ha3.
    destruct (sins !! "liquidator") eqn:Hl; [|discriminate].
    inversion Ha; inversion Ha1; inversion Ha3; subst.
    eexists _, s, ins, sins, c. by repeat split.
  - destruct (bool_decide (abi_name t = Some "CToken")); simpl in *;
      [|inversion H; by left].
    right. split; [reflexivity|].
    repeat bind_inv H. inversion H; subst new; clear H.
    apply inputs_of_Return in Ha3 as (s & Hs & ->).
    destruct c' as [| |c|]; try discriminate. simpl in Ha2.
    unfold getitem in Ha, Ha2, Ha4.
    destruct (ins !! "borrower") eqn:Hb; [|discriminate].
    destruct (comp_markets !! c) eqn:Hdebt; [|discriminate].
    destruct (inputs s) as [sins|] eqn:Hsins; [|discriminate].
    simpl in Ha4. unfold getitem in Ha4.
    destruct (sins !! "liquidator") eqn:Hl; [|discriminate].
    inversion Ha; inversion Ha2; inversion Ha4; subst.
    eexists _, s, ins, sins, c. by repeat split.
Qed.

End PassFacts.

(** The pass returns the records of its traces one after the other, in the
    order of the traces: it returns [out] exactly when every trace can be
    looked at on its own and [out] is what they add, concatenated. *)
Theorem pass_concatenates_in_order (WETH_ADDRESS : string)
    (traces : list ClassifiedTrace) (comp_markets : gmap string string)
    (w3 : Web3) (out : list Liquidation.t) :
  compound_liquidations.get_compound_liquidations
    WETH_ADDRESS traces comp_markets w3 = Return out
  <-> exists news,
        Forall2 (fun t new =>
          compound_liquidations.inspect_trace
            WETH_ADDRESS traces comp_markets w3 [] t = Return new) traces news
        /\ out = concat news.
Proof. exact (inspect_traces_concat WETH_ADDRESS traces comp_markets w3 traces out). Qed.

Lemma concat_provenance (WETH_ADDRESS : string)
    (traces : list ClassifiedTrace) (comp_markets : gmap string string)
    (w3 : Web3) (todo : list ClassifiedTrace) (news : list (list Liquidation.t)) :
  Forall2 (fun t new =>
    compound_liquidations.inspect_trace
      WETH_ADDRESS traces comp_markets w3 [] t = Return new) todo news ->
  List.map record_provenance (concat news)
  = List.map trace_provenance (List.filter matched todo).
Proof.
  induction 1 as [|t new todo news Ht _ IH]; [reflexivity|].
  simpl. rewrite List.map_app, IH.
  destruct (inspect_trace_shape _ _ _ _ _ _ Ht)
    as [[-> ->]|(-> & r & s & ins & sins & c & -> & Hprov & _)].
  - reflexivity.
  - simpl. by rewrite Hprov.
Qed.

(** When the pass returns, its records are in one-to-one correspondence, in
    order, with the liquidation calls decoded with the [CEther] or the
    [CToken] interface: record by record, the transaction hash, the trace
    address and the block number are those of the calls. *)
Theorem records_follow_matched_traces (WETH_ADDRESS : string)
    (traces : list ClassifiedTrace) (comp_markets : gmap string string)
    (w3 : Web3) (out : list Liquidation.t) :
  compound_liquidations.get_compound_liquidations
    WETH_ADDRESS traces comp_markets w3 = Return out ->
  List.map record_provenance out
  = List.map trace_provenance (List.filter matched traces)
  /\ length out = length (List.filter matched traces).
Proof.
  intros H. unfold compound_liquidations.get_compound_liquidations in H.
  apply inspect_traces_concat in H as (news & Hnews & ->).
  pose proof (concat_provenance _ _ _ _ _ _ Hnews) as E.
  split; [exact E|].
  by rewrite <- (length_map record_provenance), E, length_map.
Qed.

Lemma records_follow_matched_traces_witness :
  List.map record_provenance
    [Scenario.record "0xusdc" "0xdai" (VInt 1000)]
  = List.map trace_provenance (List.filter matched Scenario.traces)
  /\ length [Scenario.record "0xusdc" "0xdai" (VInt 1000)]
     = length (List.filter matched Scenario.traces).
Proof.
  apply (records_follow_matched_traces Scenario.WETH_ADDRESS Scenario.traces
           Scenario.registry Scenario.w3).
  reflexivity.
Defined.

Lemma in_concat_Forall2 {A B} (P : A -> list B -> Prop) l news r :
  Forall2 P l news -> In r (concat news) ->
  exists t new, In t l /\ P t new /\ In r new.
Proof.
  induction 1 as [|t new l news Ht _ IH]; simpl; [intros []|].
  intros Hin. apply in_app_or in Hin as [Hin|Hin].
  - exists t, new. auto.
  - destruct (IH Hin) as (t' & new' & Hin' & HP & Hr).
    exists t', new'. auto.
Qed.

(** Every record of a pass comes from a liquidation call of the list that has
    a seize call among its descendants: the record carries the provenance of
    the call and the liquidator that the seize call names, its debt token is
    the registry entry of the call's [cTokenCollateral], and its protocol is
    Compound v2. *)
Theorem record_has_seize_call (WETH_ADDRESS : string)
    (traces : list ClassifiedTrace) (comp_markets : gmap string string)
    (w3 : Web3) (out : list Liquidation.t) (r : Liquidation.t) :
  compound_liquidations.get_compound_liquidations
    WETH_ADDRESS traces comp_markets w3 = Return out ->
  In r out ->
  exists t s ins sins c,
    In t traces /\ matched t = true
    /\ In s traces /\ classification s = seize
    /\ transaction_hash s = transaction_hash t
    /\ is_child_trace_address (trace_address s) (trace_address t) = true
    /\ record_provenance r = trace_provenance t
    /\ Liquidation.protocol r = compound_v2
    /\ inputs t = Some ins /\ inputs s = Some sins
    /\ ins !! "borrower" = Some (Liquidation.liquidated_user r)
    /\ sins !! "liquidator" = Some (Liquidation.liquidator_user r)
    /\ ins !! "cTokenCollateral" = Some (VStr c)
    /\ comp_markets !! c = Some (Liquidation.debt_token_address r).
Proof.
  intros H Hr. unfold compound_liquidations.get_compound_liquidations in H.
  apply inspect_traces_concat in H as (news & Hnews & ->).
  destruct (in_concat_Forall2 _ _ _ _ Hnews Hr) as (t & new & Hin & Ht & Hnew).
  destruct (inspect_trace_shape _ _ _ _ _ _ Ht)
    as [[_ ->]|(Hm & r' & s & ins & sins & c & -> & Hprov & Hproto & Hs
                & Hins & Hsins & Hb & Hl & Hc & Hdebt)]; [destruct Hnew|].
  destruct Hnew as [<-|[]].
  apply get_seize_call_Some in Hs as [Hs Hseize].
  unfold get_child_traces in Hs.
  apply List.filter_In in Hs as [Hs Hchild].
  apply andb_prop in Hchild as [Hhash Hchild].
  apply bool_decide_eq_true in Hhash.
  exists t, s, ins, sins, c. by repeat split.
Qed.

Lemma record_has_seize_call_witness :
  exists t s ins sins c,
    In t Scenario.traces /\ matched t = true
    /\ In s Scenario.traces /\ classification s = seize
    /\ transaction_hash s = transaction_hash t
    /\ is_child_trace_address (trace_address s) (trace_address t) = true
    /\ record_provenance (Scenario.record "0xusdc" "0xdai" (VInt 1000))
       = trace_provenance t
    /\ Liquidation.protocol (Scenario.record "0xusdc" "0xdai" (VInt 1000))
       = compound_v2
    /\ inputs t = Some ins /\ inputs s = Some sins
    /\ ins !! "borrower"
       = Some (Liquidation.liquidated_user
                 (Scenario.record "0xusdc" "0xdai" (VInt 1000)))
    /\ sins !! "liquidator"
       = Some (Liquidation.liquidator_user
                 (Scenario.record "0xusdc" "0xdai" (VInt 1000)))
    /\ ins !! "cTokenCollateral" = Some (VStr c)
    /\ Scenario.registry !! c
       = Some (Liquidation.debt_token_address
                 (Scenario.record "0xusdc" "0xdai" (VInt 1000))).
Proof.
  apply (record_has_seize_call Scenario.WETH_ADDRESS Scenario.traces
           Scenario.registry Scenario.w3
           [Scenario.record "0xusdc" "0xdai" (VInt 1000)]).
  - reflexivity.
  - left. reflexivity.
Defined.

Lemma pass_without_liquidation_call (WETH_ADDRESS : string)
    (traces : list ClassifiedTrace) (comp_markets : gmap string string)
    (w3 : Web3) :
  Forall (fun t => classification t <> liquidate
                   \/ protocol t <> Some compound_v2) traces ->
  compound_liquidations.get_compound_liquidations
    WETH_ADDRESS traces comp_markets w3 = Return [].
Proof.
  intros H. unfold compound_liquidations.get_compound_liquidations.
  apply inspect_traces_concat.
  exists (List.map (fun _ => []) traces). split.
  - generalize traces at 1 as all. intros all.
    induction H as [|t l Ht _ IH]; simpl; constructor; [|exact IH].
    by apply other_trace_step.
  - clear H. induction traces as [|t l IH]; [reflexivity|exact IH].
Qed.

(** A list without a Compound v2 liquidation call gives no record, whatever
    the registry and the provider: the chain is not queried. *)
Theorem no_liquidation_call_no_query (WETH_ADDRESS : string)
    (traces : list ClassifiedTrace) (comp_markets : gmap string string)
    (w3 : Web3) :
  Forall (fun t => classification t <> liquidate
                   \/ protocol t <> Some compound_v2) traces ->
  compound_liquidations.get_compound_liquidations
    WETH_ADDRESS traces comp_markets w3 = Return [].
Proof. apply pass_without_liquidation_call. Qed.

Lemma no_liquidation_call_no_query_witness :
  compound_liquidations.get_compound_liquidations Scenario.WETH_ADDRESS
    [Scenario.seize_trace [0]; Scenario.seize_trace [1]] ∅
    {| toChecksumAddress _ := Scenario.reverted;
       getAllMarkets _ := Scenario.reverted;
       underlying _ := Scenario.reverted;
       exchangeRateCurrent _ _ := Scenario.reverted;
       decimals _ := Scenario.reverted |}
  = Return [].
Proof.
  apply no_liquidation_call_no_query.
  repeat constructor; discriminate.
Defined.

(** When the pass returns, every Compound v2 liquidation call of the list,
    whatever its interface, has decoded inputs whose [cTokenCollateral] is a
    string, the lower-cased string is a key of the registry, and the rate of
    that market was resolved at the block of the call. *)
Theorem pass_returns_requires_market (WETH_ADDRESS : string)
    (traces : list ClassifiedTrace) (comp_markets : gmap string string)
    (w3 : Web3) (out : list Liquidation.t) (t : ClassifiedTrace) :
  compound_liquidations.get_compound_liquidations
    WETH_ADDRESS traces comp_markets w3 = Return out ->
  In t traces ->
  classification t = liquidate ->
  protocol t = Some compound_v2 ->
  exists ins c rate,
    inputs t = Some ins
    /\ ins !! "cTokenCollateral" = Some (VStr c)
    /\ is_Some (comp_markets !! lower c)
    /\ compound_liquidations.get_underlying_ctoken_exchange_rate
         (VStr c) (block_number t) w3 comp_markets = Return rate.
Proof.
  intros Hout Hin Hc Hp.
  destruct (inspect_traces_In _ _ _ _ _ _ _ Hout Hin) as (new & Hnew & _).
  revert Hnew. unfold compound_liquidations.inspect_trace.
  rewrite Hc, Hp. simpl. intros H. bind_inv H. bind_inv H.
  destruct (inputs t) as [ins|]; [|discriminate]. simpl in Ha.
  unfold getitem in Ha.
  destruct (ins !! "cTokenCollateral") as [c'|] eqn:Hcol; [|discriminate].
  inversion Ha; subst a; clear Ha.
  pose proof Ha0 as Hrate.
  unfold compound_liquidations.get_underlying_ctoken_exchange_rate in Ha0.
  repeat bind_inv Ha0.
  destruct c' as [| |c|]; try discriminate.
  inversion Ha2; subst. unfold getitem in Ha3.
  destruct (comp_markets !! lower c) as [u|] eqn:Hu; [|discriminate].
  exists ins, c, a0. by repeat split.
Qed.

Lemma pass_returns_requires_market_witness :
  exists ins c rate,
    inputs Scenario.token_liquidation = Some ins
    /\ ins !! "cTokenCollateral" = Some (VStr c)
    /\ is_Some (Scenario.registry !! lower c)
    /\ compound_liquidations.get_underlying_ctoken_exchange_rate
         (VStr c) (block_number Scenario.token_liquidation)
         Scenario.w3 Scenario.registry = Return rate.
Proof.
  apply (pass_returns_requires_market Scenario.WETH_ADDRESS Scenario.traces
           Scenario.registry Scenario.w3
           [Scenario.record "0xusdc" "0xdai" (VInt 1000)]).
  - reflexivity.
  - left. reflexivity.
  - reflexivity.
  - reflexivity.
Defined.

(** ** More on the market registry *)

(** Every key and every value of the registry is lower-cased. *)
Theorem registry_is_lower_case (w3 : Web3) (reg : gmap string string)
    (k v : string) :
  compound_liquidations.get_all_comp_markets w3 = Return reg ->
  reg !! k = Some v ->
  lower k = k /\ lower v = v.
Proof.
  unfold compound_liquidations.get_all_comp_markets. intros H Hk. bind_inv H.
  destruct (add_markets_lookup w3 a ∅ reg k H)
    as [[E _]|(c & u & _ & _ & Hc & _ & E)].
  - rewrite E, lookup_empty in Hk. discriminate.
  - rewrite E in Hk. inversion Hk. rewrite <- Hc.
    split; apply lower_idemp.
Qed.

Lemma registry_is_lower_case_witness :
  lower "0xc_dai" = "0xc_dai" /\ lower "0xdai" = "0xdai".
Proof.
  apply (registry_is_lower_case Scenario.w3 Scenario.registry);
    reflexivity.
Defined.

(** The keys of the registry are the lower-cased addresses of the enumerated
    markets other than cETH, and the value under a key is the lower-cased
    underlying token of an enumerated market spelled like the key. *)
Theorem registry_entries (w3 : Web3) (markets : list string)
    (reg : gmap string string) :
  getAllMarkets w3 compound_liquidations.V2_COMPTROLLER_ADDRESS
    = Return markets ->
  compound_liquidations.get_all_comp_markets w3 = Return reg ->
  (forall c, In c markets -> c <> compound_liquidations.V2_C_ETHER ->
     is_Some (reg !! lower c))
  /\ (forall k v, reg !! k = Some v ->
        exists c u,
          In c markets /\ c <> compound_liquidations.V2_C_ETHER
          /\ lower c = k /\ underlying w3 c = Return u /\ v = lower u).
Proof.
  unfold compound_liquidations.get_all_comp_markets.
  intros Hmarkets H. rewrite Hmarkets in H. simpl in H. split.
  - intros c Hin Hne.
    destruct (add_markets_lookup w3 markets ∅ reg (lower c) H)
      as [[_ Hno]|(c' & u & _ & _ & _ & _ & E)].
    + exfalso. by apply (Hno c).
    + rewrite E. by eexists.
  - intros k v Hk.
    destruct (add_markets_lookup w3 markets ∅ reg k H)
      as [[E _]|(c & u & Hin & Hne & Hc & Hu & E)].
    + rewrite E, lookup_empty in Hk. discriminate.
    + rewrite E in Hk. inversion Hk. by exists c, u.
Qed.

Lemma registry_entries_witness :
  (forall c,
     In c ["0xC_DAI"; compound_liquidations.V2_C_ETHER; "0xC_USDC"] ->
     c <> compound_liquidations.V2_C_ETHER ->
     is_Some (Scenario.registry !! lower c))
  /\ (forall k v, Scenario.registry !! k = Some v ->
        exists c u,
          In c ["0xC_DAI"; compound_liquidations.V2_C_ETHER; "0xC_USDC"]
          /\ c <> compound_liquidations.V2_C_ETHER
          /\ lower c = k /\ underlying Scenario.w3 c = Return u
          /\ v = lower u).
Proof.
  apply (registry_entries Scenario.w3
           ["0xC_DAI"; compound_liquidations.V2_C_ETHER; "0xC_USDC"]
           Scenario.registry); reflexivity.
Defined.

Lemma add_markets_raise (w3 : Web3) (pre post : list string) (c : string)
    (e : exn) (m : gmap string string) :
  (forall x, In x pre -> x <> compound_liquidations.V2_C_ETHER ->
     returns (underlying w3 x)) ->
  c <> compound_liquidations.V2_C_ETHER ->
  underlying w3 c = Raise e ->
  compound_liquidations.add_markets w3 (pre ++ c :: post) m = Raise e.
Proof.
  intros Hpre Hc He. revert m.
  induction pre as [|x pre IH]; intros m; simpl;
    unfold compound_liquidations.add_market.
  - rewrite bool_decide_eq_true_2 by assumption. rewrite He. reflexivity.
  - case_bool_decide as Hx.
    + destruct (Hpre x (or_introl eq_refl) Hx) as [u ->]. simpl.
      apply IH. intros y Hy. apply Hpre. by right.
    + simpl. apply IH. intros y Hy. apply Hpre. by right.
Qed.

(** The registry is built whole or not at all: the first market other than
    cETH whose underlying token cannot be queried ends the build with the
    exception of that query. *)
Theorem registry_build_fails_whole (w3 : Web3) (pre post : list string)
    (c : string) (e : exn) :
  getAllMarkets w3 compound_liquidations.V2_COMPTROLLER_ADDRESS
    = Return (pre ++ c :: post)%list ->
  (forall x, In x pre -> x <> compound_liquidations.V2_C_ETHER ->
     returns (underlying w3 x)) ->
  c <> compound_liquidations.V2_C_ETHER ->
  underlying w3 c = Raise e ->
  compound_liquidations.get_all_comp_markets w3 = Raise e.
Proof.
  intros Hmarkets Hpre Hc He.
  unfold compound_liquidations.get_all_comp_markets.
  rewrite Hmarkets. simpl. by apply add_markets_raise.
Qed.

Lemma registry_build_fails_whole_witness :
  compound_liquidations.get_all_comp_markets
    {| toChecksumAddress := toChecksumAddress Scenario.w3;
       getAllMarkets _ := Return (["0xC_DAI"] ++ "0xC_BAT" :: ["0xC_USDC"])%list;
       underlying := underlying Scenario.w3;
       exchangeRateCurrent := exchangeRateCurrent Scenario.w3;
       decimals := decimals Scenario.w3 |}
  = Raise (Web3Error "execution reverted").
Proof.
  apply (registry_build_fails_whole _ ["0xC_DAI"] ["0xC_USDC"] "0xC_BAT").
  - reflexivity.
  - intros x [<-|[]] _. apply is_return_returns. reflexivity.
  - discriminate.
  - reflexivity.
Defined.

Lemma add_markets_ext (w3 w3' : Web3) (markets : list string)
    (m : gmap string string) :
  (forall c, c <> compound_liquidations.V2_C_ETHER ->
     underlying w3 c = underlying w3' c) ->
  compound_liquidations.add_markets w3 markets m
  = compound_liquidations.add_markets w3' markets m.
Proof.
  intros H. revert m. induction markets as [|x markets IH]; intros m; simpl;
    [reflexivity|].
  unfold compound_liquidations.add_market. case_bool_decide as Hx.
  - rewrite (H x Hx). destruct (underlying w3' x); simpl; [apply IH|reflexivity].
  - simpl. apply IH.
Qed.

(** The underlying token of cETH is never queried: two providers that agree
    on the enumeration and on the underlying token of every other address
    give the same outcome of the build. *)
Theorem cether_underlying_not_queried (w3 w3' : Web3) :
  getAllMarkets w3 compound_liquidations.V2_COMPTROLLER_ADDRESS
    = getAllMarkets w3' compound_liquidations.V2_COMPTROLLER_ADDRESS ->
  (forall c, c <> compound_liquidations.V2_C_ETHER ->
     underlying w3 c = underlying w3' c) ->
  compound_liquidations.get_all_comp_markets w3
  = compound_liquidations.get_all_comp_markets w3'.
Proof.
  intros Hmarkets Hu. unfold compound_liquidations.get_all_comp_markets.
  rewrite Hmarkets.
  destruct (getAllMarkets w3' compound_liquidations.V2_COMPTROLLER_ADDRESS);
    simpl; [|reflexivity].
  by apply add_markets_ext.
Qed.

Lemma cether_underlying_not_queried_witness :
  compound_liquidations.get_all_comp_markets Scenario.w3
  = compound_liquidations.get_all_comp_markets
      {| toChecksumAddress := toChecksumAddress Scenario.w3;
         getAllMarkets := getAllMarkets Scenario.w3;
         underlying c :=
           if bool_decide (c = compound_liquidations.V2_C_ETHER)
           then Return "0xEEEE" else underlying Scenario.w3 c;
         exchangeRateCurrent := exchangeRateCurrent Scenario.w3;
         decimals := decimals Scenario.w3 |}.
Proof.
  apply cether_underlying_not_queried.
  - reflexivity.
  - intros c Hc. cbn [underlying].
    rewrite bool_decide_eq_false_2 by exact Hc. reflexivity.
Defined.

Lemma ceth_add_markets_agree (w3 : Web3) (markets : list string)
    (m : gmap string string) :
  compound_v2_ceth.add_markets w3 markets m
  = compound_liquidations.add_markets w3 markets m.
Proof.
  revert m. induction markets as [|x markets IH]; intros m; simpl;
    [reflexivity|].
  unfold compound_liquidations.add_market.
  change compound_v2_ceth.c_ether with compound_liquidations.V2_C_ETHER.
  case_bool_decide; simpl; [|apply IH].
  destruct (underlying w3 x); simpl; [apply IH|reflexivity].
Qed.

Lemma ceth_get_all_comp_markets_eq (w3 : Web3) :
  compound_v2_ceth.get_all_comp_markets w3
  = compound_liquidations.get_all_comp_markets w3.
Proof.
  unfold compound_v2_ceth.get_all_comp_markets,
    compound_liquidations.get_all_comp_markets.
  change compound_v2_ceth.comp_v2_comptroller_address
    with compound_liquidations.V2_COMPTROLLER_ADDRESS.
  destruct (getAllMarkets w3 compound_liquidations.V2_COMPTROLLER_ADDRESS);
    simpl; [|reflexivity].
  apply ceth_add_markets_agree.
Qed.

(** The two modules build the same registry: [get_all_comp_markets] of the
    cEther inspector and that of [compound_liquidations] have the same
    outcome on every provider. *)
Theorem get_all_comp_markets_agree (w3 : Web3) :
  compound_v2_ceth.get_all_comp_markets w3
  = compound_liquidations.get_all_comp_markets w3.
Proof. apply ceth_get_all_comp_markets_eq. Qed.

(** ** More on the exchange rate *)

Lemma exchange_rate_queries (c_token_address u a ua : string)
    (block r d_u d_c : Z) (w3 : Web3) (comp_markets : gmap string string) :
  comp_markets !! lower c_token_address = Some u ->
  toChecksumAddress w3 (VStr c_token_address) = Return a ->
  exchangeRateCurrent w3 a block = Return r ->
  toChecksumAddress w3 (VStr u) = Return ua ->
  decimals w3 ua = Return d_u ->
  decimals w3 a = Return d_c ->
  compound_liquidations.get_underlying_ctoken_exchange_rate
    (VStr c_token_address) block w3 comp_markets
  = (scale ← py_pow 10 (18 + d_u - d_c); py_truediv r scale).
Proof.
  intros Hu Ha Hr Hua Hdu Hdc.
  unfold compound_liquidations.get_underlying_ctoken_exchange_rate,
    compound_liquidations.get_erc20_token_decimals.
  rewrite Ha. simpl. rewrite Hr. simpl. unfold getitem. rewrite Hu. simpl.
  rewrite Hua. simpl. rewrite Hdu. simpl. rewrite Hdc. reflexivity.
Qed.

(** With an exponent [18 + d_u - d_c] that is not negative, the rate never
    fails with a division by zero and is never infinite: it is a finite
    [float], or the quotient is too large and [OverflowError] is raised. *)
Theorem exchange_rate_finite_or_overflow (c_token_address u a ua : string)
    (block r d_u d_c : Z) (w3 : Web3) (comp_markets : gmap string string) :
  comp_markets !! lower c_token_address = Some u ->
  toChecksumAddress w3 (VStr c_token_address) = Return a ->
  exchangeRateCurrent w3 a block = Return r ->
  toChecksumAddress w3 (VStr u) = Return ua ->
  decimals w3 ua = Return d_u ->
  decimals w3 a = Return d_c ->
  0 <= 18 + d_u - d_c ->
  (exists rate,
     compound_liquidations.get_underlying_ctoken_exchange_rate
       (VStr c_token_address) block w3 comp_markets = Return rate
     /\ is_inf rate = false)
  \/ compound_liquidations.get_underlying_ctoken_exchange_rate
       (VStr c_token_address) block w3 comp_markets = Raise OverflowError.
Proof.
  intros Hu Ha Hr Hua Hdu Hdc Hexp.
  rewrite (exchange_rate_queries _ _ _ _ _ _ _ _ _ _ Hu Ha Hr Hua Hdu Hdc).
  unfold py_pow. rewrite (proj2 (Z.leb_le _ _) Hexp). simpl.
  unfold int_truediv.
  assert (10 ^ (18 + d_u - d_c) <> 0) as Hpow
    by (apply Z.pow_nonzero; lia).
  destruct (decide (10 ^ (18 + d_u - d_c) = 0)) as [E|_]; [contradiction|].
  destruct (is_inf (f64_div (exact_of_int r)
                      (exact_of_int (10 ^ (18 + d_u - d_c))))) eqn:Hinf.
  - by right.
  - left. by eexists.
Qed.

Lemma exchange_rate_finite_or_overflow_witness :
  (exists rate,
     compound_liquidations.get_underlying_ctoken_exchange_rate
       (VStr "0xc_dai") 13000000 Scenario.w3 Scenario.registry = Return rate
     /\ is_inf rate = false)
  \/ compound_liquidations.get_underlying_ctoken_exchange_rate
       (VStr "0xc_dai") 13000000 Scenario.w3 Scenario.registry
     = Raise OverflowError.
Proof.
  apply (exchange_rate_finite_or_overflow "0xc_dai" "0xdai" "0xc_dai" "0xdai"
           13000000 (2 * 10 ^ 26) 18 8 Scenario.w3 Scenario.registry);
    first [reflexivity | lia].
Defined.

(** The rate of the cEther inspector, which builds the registry at each
    call, is the rate of [compound_liquidations] over the registry so built,
    for an address in checksum form and the provider's query of decimals. *)
Theorem ceth_rate_agrees (w3 : Web3) (c_token_address : string) (block : Z)
    (comp_markets : gmap string string) :
  toChecksumAddress w3 (VStr c_token_address) = Return c_token_address ->
  compound_liquidations.get_all_comp_markets w3 = Return comp_markets ->
  compound_v2_ceth.get_underlying_ctoken_exchange_rate
    w3 (decimals w3) c_token_address block
  = compound_liquidations.get_underlying_ctoken_exchange_rate
      (VStr c_token_address) block w3 comp_markets.
Proof.
  intros Hsum Hreg.
  unfold compound_v2_ceth.get_underlying_ctoken_exchange_rate,
    compound_liquidations.get_underlying_ctoken_exchange_rate,
    compound_liquidations.get_erc20_token_decimals.
  rewrite Hsum, ceth_get_all_comp_markets_eq, Hreg. simpl.
  destruct (exchangeRateCurrent w3 c_token_address block); simpl;
    [|reflexivity].
  destruct (getitem comp_markets (lower c_token_address)) as [u|]; simpl;
    [|reflexivity].
  destruct (toChecksumAddress w3 (VStr u)); simpl; reflexivity.
Qed.

Lemma ceth_rate_agrees_witness :
  compound_v2_ceth.get_underlying_ctoken_exchange_rate
    Scenario.w3 (decimals Scenario.w3) "0xc_dai" 13000000
  = compound_liquidations.get_underlying_ctoken_exchange_rate
      (VStr "0xc_dai") 13000000 Scenario.w3 Scenario.registry.
Proof.
  apply ceth_rate_agrees; reflexivity.
Defined.

(** ** More on the collateral source *)

Lemma attribution_not_other tx t : attribution tx t <> other.
Proof. unfold attribution. by case_bool_decide. Qed.

Lemma fold_attribute_snoc tx liquidation_contract l t source :
  fold_left (compound_v2_ceth.attribute_trace tx liquidation_contract)
    (l ++ [t]) source
  = if attributes tx liquidation_contract t then attribution tx t
    else fold_left (compound_v2_ceth.attribute_trace tx liquidation_contract)
           l source.
Proof. rewrite fold_left_app. simpl. apply attribute_trace_attributes. Qed.

(** The source the loop ends with, from any source it starts with. *)
Lemma fold_attribute_start tx liquidation_contract l source :
  fold_left (compound_v2_ceth.attribute_trace tx liquidation_contract) l source
  = match compound_v2_ceth.find_collateral_source l tx liquidation_contract with
    | other => source
    | found => found
    end.
Proof.
  unfold compound_v2_ceth.find_collateral_source.
  induction l as [|t l IH] using rev_ind; [reflexivity|].
  rewrite !fold_attribute_snoc.
  destruct (attributes tx liquidation_contract t); [|exact IH].
  pose proof (attribution_not_other tx t).
  by destruct (attribution tx t).
Qed.

(** Later traces prevail: the source of two lists of traces one after the
    other is the source of the second list unless that is [other], in which
    case it is the source of the first. *)
Theorem find_collateral_source_app (l1 l2 : list ClassifiedTrace)
    (tx : Transaction.t) (liquidation_contract : option string) :
  compound_v2_ceth.find_collateral_source (l1 ++ l2) tx liquidation_contract
  = match compound_v2_ceth.find_collateral_source l2 tx liquidation_contract
    with
    | other =>
        compound_v2_ceth.find_collateral_source l1 tx liquidation_contract
    | found => found
    end.
Proof.
  unfold compound_v2_ceth.find_collateral_source at 1.
  rewrite fold_left_app. apply fold_attribute_start.
Qed.

(** The source does not depend on the case of the letters in the addresses
    of the transaction. *)
Theorem find_collateral_source_tx_case (classified_traces : list ClassifiedTrace)
    (tx tx' : Transaction.t) (liquidation_contract : option string) :
  lower (Transaction.to_address tx) = lower (Transaction.to_address tx') ->
  lower (Transaction.from_address tx) = lower (Transaction.from_address tx') ->
  compound_v2_ceth.find_collateral_source
    classified_traces tx liquidation_contract
  = compound_v2_ceth.find_collateral_source
      classified_traces tx' liquidation_contract.
Proof.
  intros Hto Hfrom. unfold compound_v2_ceth.find_collateral_source.
  generalize other.
  induction classified_traces as [|t l IH]; intros source; [reflexivity|].
  simpl. rewrite IH. f_equal.
  unfold compound_v2_ceth.attribute_trace. by rewrite Hto, Hfrom.
Qed.

Lemma find_collateral_source_tx_case_witness :
  compound_v2_ceth.find_collateral_source
    [Scenario.liquidateBorrow_from "0xb07"] Scenario.tx (Some "0xc_usdc")
  = compound_v2_ceth.find_collateral_source
      [Scenario.liquidateBorrow_from "0xb07"]
      {| Transaction.tx_hash := "0xabc";
         Transaction.from_address := "0xe0a";
         Transaction.to_address := "0xb07" |}
      (Some "0xc_usdc").
Proof.
  apply find_collateral_source_tx_case; reflexivity.
Defined.

(** A source other than [other] is backed by a call: [searcher_contract]
    by a call of [liquidateBorrow] on the liquidation contract that comes
    from the lower-cased destination of the transaction, [searcher_eoa] by
    one that comes from its lower-cased origin and not from its destination;
    and with [other] no call of [liquidateBorrow] on the contract comes from
    either. *)
Theorem find_collateral_source_backed (classified_traces : list ClassifiedTrace)
    (tx : Transaction.t) (liquidation_contract : option string) :
  match compound_v2_ceth.find_collateral_source
          classified_traces tx liquidation_contract with
  | searcher_contract =>
      exists t,
        In t classified_traces
        /\ to_address t = liquidation_contract
        /\ function_name t = Some "liquidateBorrow"
        /\ from_address t = Some (lower (Transaction.to_address tx))
  | searcher_eoa =>
      exists t,
        In t classified_traces
        /\ to_address t = liquidation_contract
        /\ function_name t = Some "liquidateBorrow"
        /\ from_address t = Some (lower (Transaction.from_address tx))
        /\ from_address t <> Some (lower (Transaction.to_address tx))
  | other =>
      forall t,
        In t classified_traces ->
        to_address t = liquidation_contract ->
        function_name t = Some "liquidateBorrow" ->
        from_address t <> Some (lower (Transaction.to_address tx))
        /\ from_address t <> Some (lower (Transaction.from_address tx))
  end.
Proof.
  unfold compound_v2_ceth.find_collateral_source.
  induction classified_traces as [|t l IH] using rev_ind.
  - simpl. intros t [].
  - rewrite fold_attribute_snoc.
    destruct (attributes tx liquidation_contract t) eqn:Hatt.
    + unfold attributes in Hatt.
      apply andb_prop in Hatt as [Hcall Hfrom].
      apply andb_prop in Hcall as [Hto Hname].
      apply bool_decide_eq_true in Hto, Hname.
      assert (In t (l ++ [t])) as Hin by (apply in_or_app; right; by left).
      unfold attribution. case_bool_decide as Hdest.
      * exists t. by repeat split.
      * simpl in Hfrom. apply bool_decide_eq_true in Hfrom.
        exists t. repeat split; try done; congruence.
    + assert (to_address t = liquidation_contract ->
              function_name t = Some "liquidateBorrow" ->
              from_address t <> Some (lower (Transaction.to_address tx))
              /\ from_address t <> Some (lower (Transaction.from_address tx)))
        as Ht.
      { intros Hto Hname. unfold attributes in Hatt.
        rewrite (bool_decide_eq_true_2 _ Hto),
          (bool_decide_eq_true_2 _ Hname) in Hatt.
        apply orb_false_elim in Hatt as [H1 H2].
        apply bool_decide_eq_false in H1, H2. split; congruence. }
      destruct (fold_left _ l other).
      * intros x Hx. apply in_app_or in Hx as [Hx|[<-|[]]];
          [by apply IH | exact Ht].
      * destruct IH as (x & Hx & IH). exists x. split; [|exact IH].
        apply in_or_app. by left.
      * destruct IH as (x & Hx & IH). exists x. split; [|exact IH].
        apply in_or_app. by left.
Qed.

Example source_of_two_lists :
  compound_v2_ceth.find_collateral_source
    ([Scenario.liquidateBorrow_from "0xe0a"]
     ++ [Scenario.liquidateBorrow_from "0x0"])
    Scenario.tx (Some "0xc_usdc") = searcher_eoa.
Proof. reflexivity. Qed.

(** ** More on the cEther inspector *)

Section InspectorFacts.

Variable w3 : Web3.
Variable tx : Transaction.t.
Variable classified_traces : list ClassifiedTrace.

Local Abbreviation inspect_loop :=
  (compound_v2_ceth.inspect_loop w3 tx classified_traces).

(** The record built from a trace, an address of the seized asset and a
    borrower. *)
Local Abbreviation record_of t borrower' asset :=
  (CethLiquidation.Liquidation_with
     {| CethLiquidation.tx_hash := Transaction.tx_hash tx;
        CethLiquidation.borrower := borrower';
        CethLiquidation.collateral_provided := "ether";
        CethLiquidation.collateral_provided_amount := val_of_int (value t);
        CethLiquidation.asset_seized := asset;
        CethLiquidation.asset_seized_amount := 0;
        CethLiquidation.profit_in_eth := 0;
        CethLiquidation.tokenflow_estimate_in_eth := 0;
        CethLiquidation.tokenflow_diff := 0;
        CethLiquidation.collateral_source :=
          compound_v2_ceth.find_collateral_source
            classified_traces tx (to_address t);
        CethLiquidation.status := seized;
        CethLiquidation.type := compound_v2_ceth_liquidation |}).

Lemma inspect_loop_skip pre rest :
  Forall (fun t => decoded_liquidateBorrow t = false) pre ->
  inspect_loop (pre ++ rest) = inspect_loop rest.
Proof.
  induction 1 as [|t pre Ht _ IH]; [reflexivity|].
  simpl. unfold decoded_liquidateBorrow in Ht. by rewrite Ht.
Qed.

Lemma inspect_loop_match t rest :
  decoded_liquidateBorrow t = true ->
  inspect_loop (t :: rest)
  = (borrower' ← subscript (inputs t) "borrower";
     c_token_collateral ← subscript (inputs t) "cTokenCollateral";
     comp_markets ← compound_v2_ceth.get_all_comp_markets w3;
     asset ← getitem_val comp_markets c_token_collateral;
     Return (record_of t borrower' asset)).
Proof.
  intros Ht. simpl. unfold decoded_liquidateBorrow in Ht. by rewrite Ht.
Qed.

(** What the loop returns: the placeholder when no trace ends it, and
    otherwise the record of the first trace that does. *)
Lemma inspect_loop_Return todo l :
  inspect_loop todo = Return l ->
  (l = CethLiquidation.Liquidation_default
   /\ Forall (fun t => decoded_liquidateBorrow t = false) todo)
  \/ (exists pre t post ins c comp_markets borrower' asset,
        todo = (pre ++ t :: post)%list
        /\ Forall (fun x => decoded_liquidateBorrow x = false) pre
        /\ function_name t = Some "liquidateBorrow"
        /\ inputs t = Some ins
        /\ ins !! "borrower" = Some borrower'
        /\ ins !! "cTokenCollateral" = Some (VStr c)
        /\ compound_v2_ceth.get_all_comp_markets w3 = Return comp_markets
        /\ comp_markets !! c = Some asset
        /\ l = record_of t borrower' asset).
Proof.
  induction todo as [|t todo IH]; intros H.
  - simpl in H. inversion H. left. by split.
  - destruct (decoded_liquidateBorrow t) eqn:Ht.
    + right. rewrite (inspect_loop_match _ _ Ht) in H.
      repeat bind_inv H. inversion H; subst l; clear H.
      unfold decoded_liquidateBorrow in Ht.
      apply andb_prop in Ht as [Hname _]. apply bool_decide_eq_true in Hname.
      destruct (inputs t) as [ins|] eqn:Hins; [|discriminate].
      simpl in Ha, Ha0. unfold getitem in Ha, Ha0.
      destruct (ins !! "borrower") eqn:Hb; [|discriminate].
      destruct (ins !! "cTokenCollateral") as [c'|] eqn:Hc; [|discriminate].
      inversion Ha; inversion Ha0; subst.
      destruct a0 as [| |c|]; try discriminate. simpl in Ha2.
      unfold getitem in Ha2.
      destruct (a1 !! c) eqn:Hasset; [|discriminate]. inversion Ha2; subst.
      exists [], t, todo, ins, c, a1, a, a2. by repeat split.
    + change (t :: todo) with ([t] ++ todo)%list in H.
      rewrite (inspect_loop_skip [t] todo) in H by (by constructor).
      destruct (IH H) as [[-> Hall]|
        (pre & t' & post & ins & c & reg & b & asset & -> & Hpre & Hrest)].
      * left. split; [reflexivity | by constructor].
      * right. exists (t :: pre), t', post, ins, c, reg, b, asset.
        split; [reflexivity|]. split; [by constructor | exact Hrest].
Qed.

End InspectorFacts.

(** The first call of [liquidateBorrow] with decoded inputs decides, whatever
    comes after it: with its borrower and its [cTokenCollateral] read, the
    registry built and the collateral market found in it, the inspector
    returns a record of ether provided, with the value of the call, the
    underlying token of the market, amounts of zero, and the collateral
    source found over the whole list of traces. *)
Theorem inspector_first_match (w3 : Web3) (tx : Transaction.t)
    (pre post : list ClassifiedTrace) (t : ClassifiedTrace)
    (ins : gmap string PyVal) (borrower : PyVal) (c asset : string)
    (comp_markets : gmap string string) :
  Forall (fun x => decoded_liquidateBorrow x = false) pre ->
  function_name t = Some "liquidateBorrow" ->
  inputs t = Some ins ->
  ins !! "borrower" = Some borrower ->
  ins !! "cTokenCollateral" = Some (VStr c) ->
  compound_v2_ceth.get_all_comp_markets w3 = Return comp_markets ->
  comp_markets !! c = Some asset ->
  compound_v2_ceth.inspect_compound_v2_ceth w3 tx (pre ++ t :: post)
  = Return (CethLiquidation.Liquidation_with
      {| CethLiquidation.tx_hash := Transaction.tx_hash tx;
         CethLiquidation.borrower := borrower;
         CethLiquidation.collateral_provided := "ether";
         CethLiquidation.collateral_provided_amount := val_of_int (value t);
         CethLiquidation.asset_seized := asset;
         CethLiquidation.asset_seized_amount := 0;
         CethLiquidation.profit_in_eth := 0;
         CethLiquidation.tokenflow_estimate_in_eth := 0;
         CethLiquidation.tokenflow_diff := 0;
         CethLiquidation.collateral_source :=
           compound_v2_ceth.find_collateral_source
             (pre ++ t :: post) tx (to_address t);
         CethLiquidation.status := seized;
         CethLiquidation.type := compound_v2_ceth_liquidation |}).
Proof.
  intros Hpre Hname Hins Hb Hc Hreg Hasset.
  unfold compound_v2_ceth.inspect_compound_v2_ceth.
  rewrite inspect_loop_skip by exact Hpre.
  rewrite inspect_loop_match.
  - rewrite Hins. simpl. unfold getitem. rewrite Hb, Hc. simpl.
    rewrite Hreg. simpl. unfold getitem. rewrite Hasset. reflexivity.
  - unfold decoded_liquidateBorrow. rewrite Hins.
    rewrite (bool_decide_eq_true_2 _ Hname). apply bool_decide_eq_true_2.
    by eexists.
Qed.

Lemma inspector_first_match_witness :
  compound_v2_ceth.inspect_compound_v2_ceth Scenario.w3 Scenario.tx
    ([Scenario.seize_trace [0; 1]]
     ++ Scenario.liquidateBorrow_from "0xb07" :: [Scenario.ether_liquidation])
  = Return (CethLiquidation.Liquidation_with
      {| CethLiquidation.tx_hash := "0xabc";
         CethLiquidation.borrower := VStr "0xB";
         CethLiquidation.collateral_provided := "ether";
         CethLiquidation.collateral_provided_amount := VInt 0;
         CethLiquidation.asset_seized := "0xdai";
         CethLiquidation.asset_seized_amount := 0;
         CethLiquidation.profit_in_eth := 0;
         CethLiquidation.tokenflow_estimate_in_eth := 0;
         CethLiquidation.tokenflow_diff := 0;
         CethLiquidation.collateral_source := searcher_contract;
         CethLiquidation.status := seized;
         CethLiquidation.type := compound_v2_ceth_liquidation |}).
Proof.
  apply (inspector_first_match Scenario.w3 Scenario.tx
           [Scenario.seize_trace [0; 1]] [Scenario.ether_liquidation]
           (Scenario.liquidateBorrow_from "0xb07") Scenario.liquidate_inputs
           (VStr "0xB") "0xc_dai" "0xdai" Scenario.registry);
    try reflexivity.
  repeat constructor.
Defined.

(** The inspector returns the placeholder [Liquidation()] exactly when no
    trace is a call of [liquidateBorrow] with decoded inputs; a call of
    [liquidateBorrow] whose inputs are [None] is passed over. *)
Theorem inspector_default_iff (w3 : Web3) (tx : Transaction.t)
    (classified_traces : list ClassifiedTrace) :
  compound_v2_ceth.inspect_compound_v2_ceth w3 tx classified_traces
    = Return CethLiquidation.Liquidation_default
  <-> Forall (fun t => decoded_liquidateBorrow t = false) classified_traces.
Proof.
  unfold compound_v2_ceth.inspect_compound_v2_ceth. split.
  - intros H. apply inspect_loop_Return in H
      as [[_ Hall]|(? & ? & ? & ? & ? & ? & ? & ? & _ & _ & _ & _ & _ & _ & _ & _ & E)].
    + exact Hall.
    + discriminate E.
  - intros H.
    rewrite <- (app_nil_r classified_traces) at 2.
    by rewrite inspect_loop_skip.
Qed.

(** A record that the inspector returns is that of the first call of
    [liquidateBorrow] with decoded inputs: its asset is the registry entry of
    the call's [cTokenCollateral], its amounts are zero, and its collateral
    source is the one found for the address the call is made to. *)
Theorem inspector_record_origin (w3 : Web3) (tx : Transaction.t)
    (classified_traces : list ClassifiedTrace) (k : CethLiquidation.kwargs) :
  compound_v2_ceth.inspect_compound_v2_ceth w3 tx classified_traces
    = Return (CethLiquidation.Liquidation_with k) ->
  exists pre t post ins c comp_markets,
    classified_traces = (pre ++ t :: post)%list
    /\ Forall (fun x => decoded_liquidateBorrow x = false) pre
    /\ function_name t = Some "liquidateBorrow"
    /\ inputs t = Some ins
    /\ ins !! "borrower" = Some (CethLiquidation.borrower k)
    /\ ins !! "cTokenCollateral" = Some (VStr c)
    /\ compound_v2_ceth.get_all_comp_markets w3 = Return comp_markets
    /\ comp_markets !! c = Some (CethLiquidation.asset_seized k)
    /\ CethLiquidation.tx_hash k = Transaction.tx_hash tx
    /\ CethLiquidation.collateral_provided k = "ether"
    /\ CethLiquidation.collateral_provided_amount k = val_of_int (value t)
    /\ CethLiquidation.asset_seized_amount k = 0
    /\ CethLiquidation.profit_in_eth k = 0
    /\ CethLiquidation.collateral_source k
       = compound_v2_ceth.find_collateral_source
           classified_traces tx (to_address t).
Proof.
  unfold compound_v2_ceth.inspect_compound_v2_ceth. intros H.
  apply inspect_loop_Return in H
    as [[E _]|(pre & t & post & ins & c & reg & b & asset & Htr & Hpre & Hname
               & Hins & Hb & Hc & Hreg & Hasset & E)]; [discriminate E|].
  inversion E; subst k; clear E.
  exists pre, t, post, ins, c, reg. by repeat split.
Qed.

Lemma inspector_record_origin_witness :
  exists pre t post ins c comp_markets,
    [Scenario.liquidateBorrow_from "0xe0a"] = (pre ++ t :: post)%list
    /\ Forall (fun x => decoded_liquidateBorrow x = false) pre
    /\ function_name t = Some "liquidateBorrow"
    /\ inputs t = Some ins
    /\ ins !! "borrower" = Some (VStr "0xB")
    /\ ins !! "cTokenCollateral" = Some (VStr c)
    /\ compound_v2_ceth.get_all_comp_markets Scenario.w3 = Return comp_markets
    /\ comp_markets !! c = Some "0xdai"
    /\ "0xabc" = Transaction.tx_hash Scenario.tx
    /\ "ether" = "ether"
    /\ VInt 0 = val_of_int (value t)
    /\ 0 = 0
    /\ 0 = 0
    /\ searcher_eoa
       = compound_v2_ceth.find_collateral_source
           [Scenario.liquidateBorrow_from "0xe0a"] Scenario.tx (to_address t).
Proof.
  apply (inspector_record_origin Scenario.w3 Scenario.tx
           [Scenario.liquidateBorrow_from "0xe0a"]
           {| CethLiquidation.tx_hash := "0xabc";
              CethLiquidation.borrower := VStr "0xB";
              CethLiquidation.collateral_provided := "ether";
              CethLiquidation.collateral_provided_amount := VInt 0;
              CethLiquidation.asset_seized := "0xdai";
              CethLiquidation.asset_seized_amount := 0;
              CethLiquidation.profit_in_eth := 0;
              CethLiquidation.tokenflow_estimate_in_eth := 0;
              CethLiquidation.tokenflow_diff := 0;
              CethLiquidation.collateral_source := searcher_eoa;
              CethLiquidation.status := seized;
              CethLiquidation.type := compound_v2_ceth_liquidation |}).
  reflexivity.
Defined.

(** The inspector looks the registry up under [cTokenCollateral] as it is:
    when the first call of [liquidateBorrow] with decoded inputs names a
    collateral market with an upper-case character, the inspector raises
    [KeyError] although the registry was built, since its keys are
    lower-cased. *)
Theorem inspector_upper_case_collateral (w3 : Web3) (tx : Transaction.t)
    (pre post : list ClassifiedTrace) (t : ClassifiedTrace)
    (ins : gmap string PyVal) (borrower : PyVal) (c : string)
    (comp_markets : gmap string string) :
  Forall (fun x => decoded_liquidateBorrow x = false) pre ->
  function_name t = Some "liquidateBorrow" ->
  inputs t = Some ins ->
  ins !! "borrower" = Some borrower ->
  ins !! "cTokenCollateral" = Some (VStr c) ->
  has_upper c ->
  compound_v2_ceth.get_all_comp_markets w3 = Return comp_markets ->
  compound_v2_ceth.inspect_compound_v2_ceth w3 tx (pre ++ t :: post)
  = Raise (KeyError (VStr c)).
Proof.
  intros Hpre Hname Hins Hb Hc Hup Hreg.
  unfold compound_v2_ceth.inspect_compound_v2_ceth.
  rewrite inspect_loop_skip by exact Hpre.
  rewrite inspect_loop_match.
  - rewrite Hins. simpl. unfold getitem. rewrite Hb, Hc. simpl.
    rewrite Hreg. simpl. unfold getitem.
    rewrite ceth_get_all_comp_markets_eq in Hreg.
    rewrite (lower_keys_upper_absent comp_markets c
               (get_all_comp_markets_lower_keys w3 comp_markets Hreg) Hup).
    reflexivity.
  - unfold decoded_liquidateBorrow. rewrite Hins.
    rewrite (bool_decide_eq_true_2 _ Hname). apply bool_decide_eq_true_2.
    by eexists.
Qed.

Lemma inspector_upper_case_collateral_witness :
  compound_v2_ceth.inspect_compound_v2_ceth Scenario.w3 Scenario.tx
    ([Scenario.seize_trace [0; 1]]
     ++ Scenario.liquidate_trace (Some "CEther") (Some "0xceth") [0]
          (Some (<["borrower" := VStr "0xB"]>
                   (<["cTokenCollateral" := VStr "0xC_DAI"]> ∅)))
        :: [])
  = Raise (KeyError (VStr "0xC_DAI")).
Proof.
  apply (inspector_upper_case_collateral Scenario.w3 Scenario.tx
           [Scenario.seize_trace [0; 1]] []
           (Scenario.liquidate_trace (Some "CEther") (Some "0xceth") [0]
              (Some (<["borrower" := VStr "0xB"]>
                       (<["cTokenCollateral" := VStr "0xC_DAI"]> ∅))))
           (<["borrower" := VStr "0xB"]>
              (<["cTokenCollateral" := VStr "0xC_DAI"]> ∅))
           (VStr "0xB") "0xC_DAI" Scenario.registry);
    try reflexivity.
  - repeat constructor.
  - discriminate.
Defined.

(** ** Traces built by the test helpers *)

Lemma find_collateral_source_no_call (classified_traces : list ClassifiedTrace)
    (tx : Transaction.t) (liquidation_contract : option string) :
  Forall (fun t => function_name t <> Some "liquidateBorrow")
    classified_traces ->
  compound_v2_ceth.find_collateral_source
    classified_traces tx liquidation_contract = other.
Proof.
  unfold compound_v2_ceth.find_collateral_source. intros H.
  generalize other as source.
  induction H as [|t l Ht _ IH]; intros source; [reflexivity|].
  simpl. unfold compound_v2_ceth.attribute_trace at 2.
  rewrite (bool_decide_eq_false_2 _ Ht), andb_false_r. apply IH.
Qed.

Lemma built_fields (t : helpers.Trace) :
  helpers.built t ->
  helpers.type t = helpers.call
  /\ classification (helpers.fields t) <> liquidate
  /\ classification (helpers.fields t) <> seize
  /\ function_name (helpers.fields t) = None
  /\ protocol (helpers.fields t) = None
  /\ value (helpers.fields t) = None.
Proof. destruct 1; by repeat split. Qed.


(** Traces built by the helpers are inert: whatever the registry and the
    provider, the pass over them returns no liquidation, the cEther
    inspector returns the placeholder, and the collateral source is
    [other]. *)
Theorem helper_traces_are_inert (WETH_ADDRESS : string)
    (comp_markets : gmap string string) (w3 : Web3) (tx : Transaction.t)
    (liquidation_contract : option string) (built_traces : list helpers.Trace) :
  Forall helpers.built built_traces ->
  compound_liquidations.get_compound_liquidations WETH_ADDRESS
    (List.map helpers.fields built_traces) comp_markets w3 = Return []
  /\ compound_v2_ceth.inspect_compound_v2_ceth w3 tx
       (List.map helpers.fields built_traces)
     = Return CethLiquidation.Liquidation_default
  /\ compound_v2_ceth.find_collateral_source
       (List.map helpers.fields built_traces) tx liquidation_contract = other.
Proof.
  intros H.
  assert (Forall (fun t => classification t <> liquidate
                           /\ function_name t <> Some "liquidateBorrow")
            (List.map helpers.fields built_traces)) as Hall.
  { induction H as [|t l Ht _ IH]; simpl; constructor; [|exact IH].
    destruct (built_fields t Ht) as (_ & Hc & _ & Hname & _).
    split; [exact Hc|]. by rewrite Hname. }
  split; [|split].
  - apply pass_without_liquidation_call.
    eapply Forall_impl; [exact Hall|]. intros t [Hc _]. by left.
  - apply inspect_loop_no_match. intros t Hin.
    apply list_elem_of_In in Hin.
    by apply (proj1 (Forall_forall _ _) Hall t Hin).
  - apply find_collateral_source_no_call.
    eapply Forall_impl; [exact Hall|]. by intros t [_ Hname].
Qed.

Lemma helper_traces_are_inert_witness :
  compound_liquidations.get_compound_liquidations Scenario.WETH_ADDRESS
    (List.map helpers.fields
       (helpers.make_transfer_trace 1 "0xabc" [0] "0xa" "0xb" "0xt" 7
        :: helpers.make_swap_trace 1 "0xabc" [1] "0xa" "0xp" "UniswapV2Pair"
             "0xb" "to"
        :: helpers.make_many_unknown_traces 1 "0xabc" [[2]; [2; 0]]))
    Scenario.registry Scenario.w3 = Return []
  /\ compound_v2_ceth.inspect_compound_v2_ceth Scenario.w3 Scenario.tx
       (List.map helpers.fields
          (helpers.make_transfer_trace 1 "0xabc" [0] "0xa" "0xb" "0xt" 7
           :: helpers.make_swap_trace 1 "0xabc" [1] "0xa" "0xp" "UniswapV2Pair"
                "0xb" "to"
           :: helpers.make_many_unknown_traces 1 "0xabc" [[2]; [2; 0]]))
     = Return CethLiquidation.Liquidation_default
  /\ compound_v2_ceth.find_collateral_source
       (List.map helpers.fields
          (helpers.make_transfer_trace 1 "0xabc" [0] "0xa" "0xb" "0xt" 7
           :: helpers.make_swap_trace 1 "0xabc" [1] "0xa" "0xp" "UniswapV2Pair"
                "0xb" "to"
           :: helpers.make_many_unknown_traces 1 "0xabc" [[2]; [2; 0]]))
       Scenario.tx (Some "0xp") = other.
Proof.
  apply helper_traces_are_inert.
  repeat constructor.
Defined.

(** ** A pass over a liquidation call without a seize call *)

(** A liquidation call decoded with the [CEther] or the [CToken] interface
    that has no seize call among its descendants makes the whole pass raise,
    whatever the registry, the provider and the other traces. *)
Theorem pass_raises_without_seize (WETH_ADDRESS : string)
    (traces : list ClassifiedTrace) (comp_markets : gmap string string)
    (w3 : Web3) (t : ClassifiedTrace) :
  In t traces ->
  matched t = true ->
  compound_liquidations._get_seize_call
    (get_child_traces (transaction_hash t) (trace_address t) traces) = None ->
  raises (compound_liquidations.get_compound_liquidations
            WETH_ADDRESS traces comp_markets w3).
Proof.
  intros Hin Hm Hs.
  destruct (compound_liquidations.get_compound_liquidations
              WETH_ADDRESS traces comp_markets w3) as [out|e] eqn:Hout;
    [|by exists e].
  exfalso.
  destruct (inspect_traces_In _ _ _ _ _ _ _ Hout Hin) as (new & Hnew & _).
  unfold matched in Hm.
  apply andb_prop in Hm as [Hq Habi]. apply andb_prop in Hq as [Hc Hp].
  apply bool_decide_eq_true in Hc, Hp.
  assert (abi_name t = Some "CEther" \/ abi_name t = Some "CToken") as Habi'.
  { apply orb_prop in Habi as [H|H]; apply bool_decide_eq_true in H; auto. }
  destruct (no_seize_variant_raises WETH_ADDRESS traces comp_markets w3 t
              Hc Hp Habi' Hs) as [e He].
  rewrite He in Hnew. discriminate Hnew.
Qed.

Lemma pass_raises_without_seize_witness :
  raises (compound_liquidations.get_compound_liquidations
            Scenario.WETH_ADDRESS
            [Scenario.seize_trace [1; 0]; Scenario.token_liquidation]
            Scenario.registry Scenario.w3).
Proof.
  apply (pass_raises_without_seize Scenario.WETH_ADDRESS
           [Scenario.seize_trace [1; 0]; Scenario.token_liquidation]
           Scenario.registry Scenario.w3 Scenario.token_liquidation).
  - right. left. reflexivity.
  - reflexivity.
  - reflexivity.
Defined.
